(** * nibabies.interfaces.reports: report segments of the NiBabies pipeline

    A shallow embedding of [nibabies/interfaces/reports.py].  Python strings
    are [string]s, sequences of 8-bit characters (the patterns, keys and
    templates of the module are ASCII, and a UTF-8 path keeps its order
    and its separators), Python integers are [Z], and a raised exception
    is the [Raise] branch of [result].  The Python built-ins the module
    relies on ([str], [str.join], [str.startswith], [in], [str.format],
    [dict], [collections.Counter], [sorted]) are embedded in [Module Py]. *)

From Stdlib Require Import ZArith Bool List Ascii String Lia.
From Stdlib Require Import DecimalString Permutation Sorted OrdersEx RelationClasses.
Import ListNotations.

Local Open Scope list_scope.
Local Open Scope string_scope.

(** ** Python built-ins *)

Module Py.

(** Exceptions the module can raise; [TraitError] and [OSError] come from
    what it calls: the interfaces of the toolkit and the file system. *)
Inductive exn : Type :=
| IndexError
| KeyError (key : string)
| TypeError (msg : string)
| AttributeError (msg : string)
| ValueError (msg : string)
| UnboundLocalError (var : string)
| TraitError (msg : string)
| OSError (msg : string).

Inductive result (A : Type) : Type :=
| Ok (a : A)
| Raise (e : exn).
Arguments Ok {A} a.
Arguments Raise {A} e.

Definition bind {A B : Type} (m : result A) (k : A -> result B) : result B :=
  match m with
  | Ok a => k a
  | Raise e => Raise e
  end.

Notation "'do' x <- m ; k" := (bind m (fun x => k))
  (at level 10, x name, m at level 100, k at level 200).

Fixpoint mapM {A B : Type} (f : A -> result B) (l : list A) : result (list B) :=
  match l with
  | [] => Ok []
  | a :: l' => do b <- f a; do bs <- mapM f l'; Ok (b :: bs)
  end.

(** A trait of a nipype input spec that the code tests with [isdefined],
    for truthiness or against [None]: it is either left [Undefined] or
    holds a value.  A trait the code reads without such a test is embedded
    by the type of values it declares. *)
Inductive trait (A : Type) : Type :=
| Undefined
| Defined (a : A).
Arguments Undefined {A}.
Arguments Defined {A} a.

(** Truth value of a trait: [Undefined] has length 0, a string, a list
    or a dict is true when it is not empty. *)
Definition truthy_str (t : trait string) : bool :=
  match t with
  | Defined (String _ _) => true
  | _ => false
  end.

Definition truthy_list {A : Type} (t : trait (list A)) : bool :=
  match t with
  | Defined (_ :: _) => true
  | _ => false
  end.

(** [str(n)] for an [int]. *)
Definition str_int (n : Z) : string := NilZero.string_of_int (Z.to_int n).

(** [s[n:]] for [0 <= n]. *)
Fixpoint slice_from (n : nat) (s : string) : string :=
  match n, s with
  | O, _ => s
  | S _, EmptyString => EmptyString
  | S n', String _ s' => slice_from n' s'
  end.

(** [s[n]] for [0 <= n]: the one-character string, or [IndexError]. *)
Definition index (s : string) (n : nat) : result string :=
  match String.get n s with
  | Some c => Ok (String c EmptyString)
  | None => Raise IndexError
  end.

(** [s.startswith(p)]. *)
Fixpoint startswith (s p : string) {struct p} : bool :=
  match p, s with
  | EmptyString, _ => true
  | String _ _, EmptyString => false
  | String a p', String b s' => Ascii.eqb a b && startswith s' p'
  end.

(** [sub in s]. *)
Fixpoint contains (sub s : string) : bool :=
  startswith s sub ||
  match s with
  | EmptyString => false
  | String _ s' => contains sub s'
  end.

(** [sep.join(l)]. *)
Fixpoint join (sep : string) (l : list string) : string :=
  match l with
  | [] => EmptyString
  | [x] => x
  | x :: l' => x ++ sep ++ join sep l'
  end.

(** [s.endswith(p)]. *)
Definition endswith (s p : string) : bool :=
  String.eqb (slice_from (String.length s - String.length p) s) p &&
  Nat.leb (String.length p) (String.length s).

(** [os.path.join(a, b)] on POSIX. *)
Definition os_path_join (a b : string) : string :=
  if startswith b "/" then b
  else if String.eqb a EmptyString || endswith a "/" then a ++ b
  else a ++ "/" ++ b.

(** [seq[b]] for a pair indexed by a [bool]: [False] is 0, [True] is 1. *)
Definition index_bool {A : Type} (p : A * A) (b : bool) : A :=
  if b then snd p else fst p.

(** A [dict] in insertion order. *)
Definition dict (K V : Type) : Type := list (K * V).

Section Dict.
Context {K V : Type} (eqb : K -> K -> bool).

Fixpoint dict_get (d : dict K V) (k : K) : option V :=
  match d with
  | [] => None
  | (k', v) :: d' => if eqb k' k then Some v else dict_get d' k
  end.

(** [d[k] = v]: an existing key keeps its place. *)
Fixpoint dict_set (d : dict K V) (k : K) (v : V) : dict K V :=
  match d with
  | [] => [(k, v)]
  | (k', v') :: d' =>
      if eqb k' k then (k', v) :: d' else (k', v') :: dict_set d' k v
  end.

Definition dict_keys (d : dict K V) : list K := map fst d.
End Dict.

(** [d[k]] for a dict with string keys. *)
Definition getitem {V : Type} (d : dict string V) (k : string) : result V :=
  match dict_get String.eqb d k with
  | Some v => Ok v
  | None => Raise (KeyError k)
  end.

(** [collections.Counter(keys)]: a count per key, in order of first
    occurrence. *)
Fixpoint counter_add (k : string) (d : dict string nat) : dict string nat :=
  match d with
  | [] => [(k, 1%nat)]
  | (k', n) :: d' =>
      if String.eqb k' k then (k', S n) :: d' else (k', n) :: counter_add k d'
  end.

Definition Counter (keys : list string) : dict string nat :=
  fold_left (fun d k => counter_add k d) keys [].

(** [a < b] on [(str, int)] tuples: strings by character code, then counts. *)
Definition item_ltb (a b : string * nat) : bool :=
  match String_as_OT.compare (fst a) (fst b) with
  | Lt => true
  | Eq => Nat.ltb (snd a) (snd b)
  | Gt => false
  end.

(** [sorted(l)], a stable sort by [<]. *)
Section Sorted.
Context {A : Type} (ltb : A -> A -> bool).

Fixpoint insert (x : A) (l : list A) : list A :=
  match l with
  | [] => [x]
  | y :: l' => if ltb y x then y :: insert x l' else x :: y :: l'
  end.

Fixpoint sorted (l : list A) : list A :=
  match l with
  | [] => []
  | x :: l' => insert x (sorted l')
  end.
End Sorted.

(** *** [str.format]

    A value passed to [format]; a [float] is known by its [__format__]
    method only (floating-point formatting is outside this embedding). *)
Inductive pyval : Type :=
| VStr (s : string)
| VInt (n : Z)
| VNone
| VUndefined
| VFloat (format_spec : string -> string).

(** A parsed template: literal characters and replacement fields. *)
Inductive piece : Type :=
| Lit (c : ascii)
| Field (name spec : string).

(** The templates of this module hold no brace escapes and no nested
    fields; both are rejected here. *)
Fixpoint parse (s : string) (field : option string) : result (list piece) :=
  match s, field with
  | EmptyString, None => Ok []
  | EmptyString, Some _ => Raise (ValueError "expected '}' before end of string")
  | String c s', None =>
      if Ascii.eqb c "{" then parse s' (Some EmptyString)
      else if Ascii.eqb c "}" then Raise (ValueError "Single '}' encountered in format string")
      else do ps <- parse s' None; Ok (Lit c :: ps)
  | String c s', Some f =>
      if Ascii.eqb c "}" then
        let '(name, spec) :=
          match String.index 0 ":" f with
          | Some i => (String.substring 0 i f, slice_from (S i) f)
          | None => (f, EmptyString)
          end in
        do ps <- parse s' None; Ok (Field name spec :: ps)
      else if Ascii.eqb c "{" then Raise (ValueError "unexpected '{' in field name")
      else parse s' (Some (f ++ String c EmptyString))
  end.

(** [format(v, spec)], for the format specs the templates of this module
    apply: none, and [d] on an [int]; a [float] answers by its own
    [__format__]. *)
Definition format_value (v : pyval) (spec : string) : result string :=
  match v with
  | VStr s =>
      if String.eqb spec EmptyString then Ok s
      else Raise (ValueError "Unknown format code for object of type 'str'")
  | VInt n =>
      if String.eqb spec EmptyString || String.eqb spec "d" then Ok (str_int n)
      else Raise (ValueError "Unknown format code for object of type 'int'")
  | VNone =>
      if String.eqb spec EmptyString then Ok "None"
      else Raise (TypeError "unsupported format string passed to NoneType.__format__")
  | VUndefined =>
      if String.eqb spec EmptyString then Ok "<undefined>"
      else Raise (TypeError "unsupported format string passed to _Undefined.__format__")
  | VFloat fmt => Ok (fmt spec)
  end.

Fixpoint render (ps : list piece) (kwargs : dict string pyval) : result string :=
  match ps with
  | [] => Ok EmptyString
  | Lit c :: ps' => do r <- render ps' kwargs; Ok (String c r)
  | Field name spec :: ps' =>
      do v <- getitem kwargs name;
      do t <- format_value v spec;
      do r <- render ps' kwargs;
      Ok (t ++ r)
  end.

(** [template.format] with keyword arguments [kwargs]. *)
Definition format (template : string) (kwargs : dict string pyval) : result string :=
  do ps <- parse template None; render ps kwargs.

End Py.

Import Py.

(** ** The logger and the world phase-encoding direction *)

(** A record of [LOGGER.warning]. *)
Definition log : Type := list string.

Definition axes : list (string * string) :=
  [("Right", "Left"); ("Anterior", "Posterior"); ("Superior", "Inferior")].

Definition ax_idcs : dict string nat := [("i", 0); ("j", 1); ("k", 2)]%nat.

(** [ax[::-1]] for a pair. *)
Definition reversed {A : Type} (p : A * A) : A * A := (snd p, fst p).

Definition str_option (o : option string) : string :=
  match o with
  | Some s => s
  | None => "None"
  end.

(** The two nested loops of [get_world_pedir]: the first [flip], in the
    order ([ax], [ax[::-1]]) for each [ax] of [axes], whose entry at index
    [not inv] starts with [axcode]. *)
Definition first_flip (axcode : string) (inv : bool) : option (string * string) :=
  find (fun flip => startswith (index_bool flip (negb inv)) axcode)
       (flat_map (fun ax => [ax; reversed ax]) axes).

Definition pedir_fallback : string :=
  "Could not be determined - assuming Anterior-Posterior".

Definition pedir_warning (ornt : string) (pe_direction : option string) : string :=
  "Cannot determine world direction of phase encoding. " ++
  "Orientation: " ++ ornt ++ "; PE dir: " ++ str_option pe_direction.

(** [get_world_pedir(ornt, pe_direction)]: the returned string and the
    warnings logged, or the exception raised. *)
Definition get_world_pedir (ornt : string) (pe_direction : option string)
  : result (string * log) :=
  do found <-
    match pe_direction with
    | Some pe =>
        do ax <- index pe 0;
        do i <- getitem ax_idcs ax;
        do axcode <- index ornt i;
        let inv := String.eqb (slice_from 1 pe) "-" in
        Ok (first_flip axcode inv)
    | None => Ok None
    end;
  match found with
  | Some flip => Ok (join "-" [fst flip; snd flip], [])
  | None => Ok (pedir_fallback, [pedir_warning ornt pe_direction])
  end.

(** ** Templates

    The tab, the newline and the double quote of the templates are
    written by name. *)

Definition tab : string := String (ascii_of_nat 9) EmptyString.
Definition nl : string := String (ascii_of_nat 10) EmptyString.
Definition dq : string := String (ascii_of_nat 34) EmptyString.

(** One line of a template: [n] tabs, the text, a newline. *)
Fixpoint tabs (n : nat) : string :=
  match n with
  | O => EmptyString
  | S n' => tab ++ tabs n'
  end.

Definition line (n : nat) (text : string) : string := tabs n ++ text ++ nl.

Definition ul_elem_desc : string := "<ul class=" ++ dq ++ "elem-desc" ++ dq ++ ">".

Definition SUBJECT_TEMPLATE : string :=
  line 1 ul_elem_desc ++
  line 2 "<li>Subject ID: {subject_id}</li>" ++
  line 2 "<li>Session ID: {session_id}</li>" ++
  line 2 "<li>Chronological age (months): {age}</li>" ++
  line 2 "<li>Structural images: {num_t1w} T1-weighted, {num_t2w} T2-weighted</li>" ++
  line 2 "<li>Anatomical reference space: {anat_ref}<li>" ++
  line 2 "<li>Functional series: {n_bold:d}</li>" ++
  line 0 "{tasks}" ++
  line 2 "<li>Standard output spaces: {std_spaces}</li>" ++
  line 2 "<li>Non-standard output spaces: {nstd_spaces}</li>" ++
  line 2 "<li>Surface reconstruction method: {recon_method}</li>" ++
  line 2 "<li>Surface reconstruction status: {recon_status}</li>" ++
  line 1 "</ul>".

Definition FUNCTIONAL_TEMPLATE : string :=
  line 2 "<details open>" ++
  line 2 "<summary>Summary</summary>" ++
  line 2 ul_elem_desc ++
  line 3 "<li>Original orientation: {ornt}</li>" ++
  line 3 "<li>Repetition time (TR): {tr:.03g}s</li>" ++
  line 3 "<li>Phase-encoding (PE) direction: {pedir}</li>" ++
  line 3 "<li>{multiecho}</li>" ++
  line 3 "<li>Slice timing correction: {stc}</li>" ++
  line 3 "<li>Susceptibility distortion correction: {sdc}</li>" ++
  line 3 "<li>Registration: {registration}</li>" ++
  line 3 "<li>Non-steady-state volumes: {dummy_scan_desc}</li>" ++
  line 2 "</ul>" ++
  line 2 "</details>".

(** ** FunctionalSummary *)

Module FunctionalSummary.

(** [traits.Enum(False, True, 'TooShort')]; as a dict key, a Python value
    that is a [bool] or a [str]. *)
Inductive key : Type :=
| KBool (b : bool)
| KStr (s : string).

Definition key_eqb (a b : key) : bool :=
  match a, b with
  | KBool x, KBool y => Bool.eqb x y
  | KStr x, KStr y => String.eqb x y
  | _, _ => false
  end.

Inductive SliceTiming : Type :=
| StcFalse
| StcTrue
| StcTooShort.

Definition slice_timing_value (s : SliceTiming) : key :=
  match s with
  | StcFalse => KBool false
  | StcTrue => KBool true
  | StcTooShort => KStr "TooShort"
  end.

(** [traits.Enum(None, 'i', 'i-', 'j', 'j-', 'k', 'k-')] without [None]. *)
Inductive PEDirection : Type :=
| PE_i | PE_i_minus
| PE_j | PE_j_minus
| PE_k | PE_k_minus.

Definition pe_direction_value (p : PEDirection) : string :=
  match p with
  | PE_i => "i" | PE_i_minus => "i-"
  | PE_j => "j" | PE_j_minus => "j-"
  | PE_k => "k" | PE_k_minus => "k-"
  end.

(** [traits.Enum('FSL', 'FreeSurfer')]. *)
Inductive Registration : Type :=
| FSL
| FreeSurfer.

Definition registration_value (r : Registration) : string :=
  match r with
  | FSL => "FSL"
  | FreeSurfer => "FreeSurfer"
  end.

(** [traits.Enum(6, 9, 12)]. *)
Inductive RegistrationDof : Type :=
| Dof6
| Dof9
| Dof12.

Definition registration_dof_value (d : RegistrationDof) : Z :=
  match d with
  | Dof6 => 6
  | Dof9 => 9
  | Dof12 => 12
  end.

(** [traits.Enum('t1w', 't2w', 'header')]. *)
Inductive RegistrationInit : Type :=
| InitT1w
| InitT2w
| InitHeader.

Record Inputs : Type := {
  slice_timing : trait SliceTiming;
  distortion_correction : string;
  pe_direction : option PEDirection;
  registration : Registration;
  fallback : bool;
  registration_dof : RegistrationDof;
  registration_init : RegistrationInit;
  (** the [__format__] method of the repetition time, a [float] *)
  tr : string -> string;
  dummy_scans : trait (option Z);
  algo_dummy_scans : trait Z;
  echo_idx : list string;
  orientation : string
}.

Definition getitem_key {V : Type} (d : dict key V) (k : key) : result V :=
  match dict_get key_eqb d k with
  | Some v => Ok v
  | None => Raise (KeyError "slice_timing")
  end.

(** The local [stc]. *)
Definition stc (inputs : Inputs) : result string :=
  match slice_timing inputs with
  | Defined s =>
      getitem_key
        [(KBool true, "Applied");
         (KBool false, "Not applied");
         (KStr "TooShort", "Skipped (too few volumes)")]
        (slice_timing_value s)
  | Undefined => Ok "n/a"
  end.

(** The local [reg]. *)
Definition reg (inputs : Inputs) : result string :=
  let dof := str_int (registration_dof_value (registration_dof inputs)) in
  do entry <-
    getitem
      [("FSL",
        ("FSL <code>flirt</code> with boundary-based registration" ++
         " (BBR) metric - " ++ dof ++ " dof",
         "FSL <code>flirt</code> rigid registration - 6 dof"));
       ("FreeSurfer",
        ("FreeSurfer <code>bbregister</code> " ++
         "(boundary-based registration, BBR) - " ++ dof ++ " dof",
         "FreeSurfer <code>mri_coreg</code> - " ++ dof ++ " dof"))]
      (registration_value (registration inputs));
  Ok (index_bool entry (fallback inputs)).

(** The value of [self.inputs.dummy_scans]: an [int], [None], or
    [Undefined] when the trait is left unset. *)
Definition dummy_scans_value (user : trait (option Z)) : pyval :=
  match user with
  | Defined (Some n) => VInt n
  | Defined None => VNone
  | Undefined => VUndefined
  end.

(** The value of [self.inputs.algo_dummy_scans]: an [int], or [Undefined]
    when the trait is left unset. *)
Definition algo_dummy_scans_value (algo : trait Z) : pyval :=
  match algo with
  | Defined n => VInt n
  | Undefined => VUndefined
  end.

(** [dummy_scans == algo_dummy_scans]: two [int]s compare by value,
    [Undefined] equals [Undefined] only, and [None] equals neither an
    [int] nor [Undefined]. *)
Definition dummy_scans_eq (user : trait (option Z)) (algo : trait Z) : bool :=
  match user, algo with
  | Defined (Some n), Defined m => Z.eqb n m
  | Undefined, Undefined => true
  | _, _ => false
  end.

(** [dummy_scans is not None]: [Undefined] is not [None]. *)
Definition is_not_None (user : trait (option Z)) : bool :=
  match user with
  | Defined None => false
  | _ => true
  end.

(** The local [dummy_scan_msg]. *)
Definition dummy_scan_msg (inputs : Inputs) : result string :=
  let dummy_scan_tmp := "{n_dum}" in
  if dummy_scans_eq (dummy_scans inputs) (algo_dummy_scans inputs) then
    format (join " " [dummy_scan_tmp; "(Confirmed: {n_alg} automatically detected)"])
           [("n_dum", dummy_scans_value (dummy_scans inputs));
            ("n_alg", algo_dummy_scans_value (algo_dummy_scans inputs))]
  else if is_not_None (dummy_scans inputs) then
    format (join " " [dummy_scan_tmp; "(Warning: {n_alg} automatically detected)"])
           [("n_dum", dummy_scans_value (dummy_scans inputs));
            ("n_alg", algo_dummy_scans_value (algo_dummy_scans inputs))]
  else
    format dummy_scan_tmp [("n_dum", algo_dummy_scans_value (algo_dummy_scans inputs))].

(** The local [multiecho]: two independent [if]s after the default. *)
Definition multiecho (inputs : Inputs) : string :=
  let multiecho := "Single-echo EPI sequence." in
  let n_echos := List.length (echo_idx inputs) in
  let multiecho :=
    if Nat.eqb n_echos 1 then
      "Multi-echo EPI sequence: only echo " ++ List.hd EmptyString (echo_idx inputs) ++
      " processed " ++ "in single-echo mode."
    else multiecho in
  let multiecho :=
    if Nat.ltb 2 n_echos then
      "Multi-echo EPI sequence: " ++ str_int (Z.of_nat n_echos) ++ " echoes."
    else multiecho in
  multiecho.

(** [FunctionalSummary._generate_segment]: the HTML segment and the
    warnings logged on the way. *)
Definition _generate_segment (inputs : Inputs) : result (string * log) :=
  do stc <- stc inputs;
  do reg <- reg inputs;
  do pedir <- get_world_pedir (orientation inputs)
                (option_map pe_direction_value (pe_direction inputs));
  do dummy_scan_msg <- dummy_scan_msg inputs;
  let multiecho := multiecho inputs in
  do segment <-
    format FUNCTIONAL_TEMPLATE
      [("pedir", VStr (fst pedir));
       ("stc", VStr stc);
       ("sdc", VStr (distortion_correction inputs));
       ("registration", VStr reg);
       ("tr", VFloat (tr inputs));
       ("dummy_scan_desc", VStr dummy_scan_msg);
       ("multiecho", VStr multiecho);
       ("ornt", VStr (orientation inputs))];
  Ok (segment, snd pedir).

End FunctionalSummary.

(** ** The BIDS file-name pattern

    [BIDS_NAME], compiled from
    [^(.*\/)?(?P<subject_id>sub-[a-zA-Z0-9]+)(_(?P<session_id>ses-[a-zA-Z0-9]+))?]
    [(_(?P<task_id>task-[a-zA-Z0-9]+))?(_(?P<acq_id>acq-[a-zA-Z0-9]+))?]
    [(_(?P<rec_id>rec-[a-zA-Z0-9]+))?(_(?P<run_id>run-[a-zA-Z0-9]+))?],
    embedded as the backtracking matcher runs it: every group after the
    subject entity is optional, so the first place where the subject entity
    matches decides the match, and each later group is taken when it fits. *)

Module BIDS.

Definition in_range (lo hi c : ascii) : bool :=
  (N.leb (N_of_ascii lo) (N_of_ascii c) && N.leb (N_of_ascii c) (N_of_ascii hi))%bool.

(** [[a-zA-Z0-9]]. *)
Definition alnum (c : ascii) : bool :=
  in_range "a" "z" c || in_range "A" "Z" c || in_range "0" "9" c.

(** Greedy [[a-zA-Z0-9]*]: the matched text and what follows. *)
Fixpoint span_alnum (s : string) : string * string :=
  match s with
  | EmptyString => (EmptyString, EmptyString)
  | String c s' =>
      if alnum c then let '(v, r) := span_alnum s' in (String c v, r)
      else (EmptyString, s)
  end.

Fixpoint strip_prefix (p s : string) {struct p} : option string :=
  match p, s with
  | EmptyString, _ => Some s
  | String _ _, EmptyString => None
  | String a p', String b s' => if Ascii.eqb a b then strip_prefix p' s' else None
  end.

(** [key-[a-zA-Z0-9]+] at the start of [s]. *)
Definition entity (key s : string) : option (string * string) :=
  match strip_prefix (key ++ "-") s with
  | Some r =>
      match span_alnum r with
      | (EmptyString, _) => None
      | (v, rest) => Some (key ++ "-" ++ v, rest)
      end
  | None => None
  end.

(** [(_(?P<name>key-[a-zA-Z0-9]+))?] at the start of [s]. *)
Definition optional_entity (key s : string) : option string * string :=
  match s with
  | String c r =>
      if Ascii.eqb c "_" then
        match entity key r with
        | Some (v, rest) => (Some v, rest)
        | None => (None, s)
        end
      else (None, s)
  | EmptyString => (None, s)
  end.

(** [match.groupdict()]. *)
Record groupdict : Type := {
  subject_id : string;
  session_id : option string;
  task_id : option string;
  acq_id : option string;
  rec_id : option string;
  run_id : option string
}.

(** The pattern from the subject entity on, at the start of [s]. *)
Definition entities (s : string) : option groupdict :=
  match entity "sub" s with
  | Some (sub, r) =>
      let '(ses, r) := optional_entity "ses" r in
      let '(task, r) := optional_entity "task" r in
      let '(acq, r) := optional_entity "acq" r in
      let '(rec, r) := optional_entity "rec" r in
      let '(run, _) := optional_entity "run" r in
      Some {| subject_id := sub; session_id := ses; task_id := task;
              acq_id := acq; rec_id := rec; run_id := run |}
  | None => None
  end.

Definition newline : ascii := ascii_of_nat 10.

(** The group [(.*\/)] taken: [.*] is greedy and does not cross a newline,
    so the last [/] of the first line is tried first, then the earlier ones. *)
Fixpoint after_directory (s : string) : option groupdict :=
  match s with
  | EmptyString => None
  | String c s' =>
      if Ascii.eqb c newline then None
      else
        match after_directory s' with
        | Some g => Some g
        | None => if Ascii.eqb c "/" then entities s' else None
        end
  end.

(** [BIDS_NAME.search(s)]: [^] anchors the match at the start of [s]; the
    directory group is tried before it is skipped. *)
Definition search (s : string) : option groupdict :=
  match after_directory s with
  | Some g => Some g
  | None => entities s
  end.

End BIDS.

(** ** SubjectSummary *)

Module SubjectSummary.

(** [traits.Enum('T1w', 'T2w')]. *)
Inductive AnatomicalReference : Type :=
| T1w
| T2w.

Definition anatomical_reference_value (a : AnatomicalReference) : string :=
  match a with
  | T1w => "T1w"
  | T2w => "T2w"
  end.

(** [traits.Enum(None, 'freesurfer', 'infantfs', 'mcribs')] without [None]. *)
Inductive ReconMethod : Type :=
| freesurfer
| infantfs
| mcribs.

Definition recon_method_value (m : ReconMethod) : string :=
  match m with
  | freesurfer => "freesurfer"
  | infantfs => "infantfs"
  | mcribs => "mcribs"
  end.

(** A functional series: one file, or the files of an echo group. *)
Inductive series : Type :=
| File (path : string)
| Echoes (paths : list string).

Record Inputs : Type := {
  t1w : trait (list string);
  t2w : trait (list string);
  subjects_dir : trait string;
  subject_id : string;
  session_id : trait string;
  anatomical_reference : AnatomicalReference;
  bold : trait (list series);
  std_spaces : list string;
  nstd_spaces : list string;
  recon_method : option ReconMethod;
  age : Z
}.

Definition str_trait (t : trait string) : pyval :=
  match t with
  | Defined s => VStr s
  | Undefined => VUndefined
  end.

Definition len_trait {A : Type} (t : trait (list A)) : nat :=
  match t with
  | Defined l => List.length l
  | Undefined => O
  end.

(** What the surrounding toolkit and the file system answer: the command
    line that [ReconAll] and [InfantReconAll] (on [pop_file(t1w)]) build
    from their inputs, or the exception that building them raises (a
    subjects directory that does not exist is refused); whether a path,
    given by its components, exists on disk, or the exception of a lookup
    that is not permitted; and whether a file can be opened and the text
    written to it. *)
Record World : Type := {
  ReconAll_cmdline : string -> string -> trait (list string) -> result string;
  InfantReconAll_cmdline : string -> string -> trait (list string) -> result string;
  Path_exists : list string -> result bool;
  write_text : string -> string -> result unit
}.

(** The part of [SubjectSummary._run_interface] that sets [self._recon_id];
    [None] when the attribute is never set. *)
Definition _recon_id (inputs : Inputs) : option string :=
  match subject_id inputs with
  | String _ _ =>
      let recon_id := "sub-" ++ subject_id inputs in
      match session_id inputs with
      | Defined (String c s) => Some (recon_id ++ "_ses-" ++ String c s)
      | _ => Some recon_id
      end
  | EmptyString => None
  end.

(** [self._recon_id]. *)
Definition getattr_recon_id (recon_id : option string) : result string :=
  match recon_id with
  | Some r => Ok r
  | None => Raise (AttributeError "'SubjectSummary' object has no attribute '_recon_id'")
  end.

Definition statuses : dict string string :=
  [("no", "Not run"); ("todo", "Run by NiBabies"); ("done", "Pre-existing directory")].

(** Lines 142-178: the binding of the local [recon_status] after the
    branches; [Ok None] when no branch assigned it. *)
Definition recon_status (w : World) (recon_id : option string) (inputs : Inputs)
  : result (option string) :=
  match subjects_dir inputs with
  | Defined (String c d) =>
      let subjects_dir := String c d in
      match recon_method inputs with
      | Some freesurfer =>
          do recon_id <- getattr_recon_id recon_id;
          do cmdline <- ReconAll_cmdline w subjects_dir recon_id (t1w inputs);
          do status <- getitem statuses (if startswith cmdline "echo" then "done" else "todo");
          Ok (Some status)
      | Some infantfs =>
          do recon_id <- getattr_recon_id recon_id;
          do cmdline <- InfantReconAll_cmdline w subjects_dir recon_id (t1w inputs);
          do status <- getitem statuses (if startswith cmdline "echo" then "done" else "todo");
          Ok (Some status)
      | Some mcribs =>
          do recon_id <- getattr_recon_id recon_id;
          let fingerprint := [subjects_dir; recon_id; "scripts"; "mcribs.log"] in
          do found <- Path_exists w fingerprint;
          do status <- getitem statuses (if found then "done" else "todo");
          Ok (Some status)
      | None => Ok None
      end
  | _ => do status <- getitem statuses "no"; Ok (Some status)
  end.

(** [s[0] if isinstance(s, list) else s]. *)
Definition first_echo (s : series) : result string :=
  match s with
  | File path => Ok path
  | Echoes (path :: _) => Ok path
  | Echoes [] => Raise IndexError
  end.

(** Line 188: the local [bold_series]. *)
Definition bold_series (inputs : Inputs) : result (list string) :=
  mapM first_echo (match bold inputs with Defined l => l | Undefined => [] end).

(** [BIDS_NAME.search(series).groupdict()['task_id'][5:]]. *)
Definition task_of (path : string) : result string :=
  match BIDS.search path with
  | None => Raise (AttributeError "'NoneType' object has no attribute 'groupdict'")
  | Some groups =>
      match BIDS.task_id groups with
      | None => Raise (TypeError "'NoneType' object is not subscriptable")
      | Some task => Ok (slice_from 5 task)
      end
  end.

(** Lines 190-192: the local [counts]. *)
Definition counts (bold_series : list string) : result (dict string nat) :=
  do keys <- mapM task_of bold_series; Ok (Counter keys).

(** One line of the task list. *)
Definition task_line (item : string * nat) : result string :=
  let '(task_id, n_runs) := item in
  format (tabs 3 ++ "<li>Task: {task_id} ({n_runs:d} run{s})</li>")
         [("task_id", VStr task_id);
          ("n_runs", VInt (Z.of_nat n_runs));
          ("s", VStr (if Nat.eqb n_runs 1 then EmptyString else "s"))].

(** Lines 194-204: the local [tasks]. *)
Definition tasks (counts : dict string nat) : result string :=
  match counts with
  | [] => Ok EmptyString
  | _ :: _ =>
      let header := tabs 2 ++ ul_elem_desc in
      let footer := tabs 2 ++ "</ul>" in
      do lines <- mapM task_line (sorted item_ltb counts);
      Ok (join nl (([header] ++ lines) ++ [footer])%list)
  end.

(** Reading a local that may be unbound. *)
Definition local (name : string) (v : option string) : result string :=
  match v with
  | Some s => Ok s
  | None => Raise (UnboundLocalError name)
  end.

(** [SubjectSummary._generate_segment]. *)
Definition _generate_segment (w : World) (recon_id : option string) (inputs : Inputs)
  : result string :=
  do recon_status <- recon_status w recon_id inputs;
  let num_t1w := if truthy_list (t1w inputs) then len_trait (t1w inputs) else O in
  let num_t2w := if truthy_list (t2w inputs) then len_trait (t2w inputs) else O in
  do bold_series <- bold_series inputs;
  do counts <- counts bold_series;
  do tasks <- tasks counts;
  do recon_status <- local "recon_status" recon_status;
  format SUBJECT_TEMPLATE
    [("subject_id", VStr (subject_id inputs));
     ("session_id", str_trait (session_id inputs));
     ("age", VInt (age inputs));
     ("num_t1w", VInt (Z.of_nat num_t1w));
     ("num_t2w", VInt (Z.of_nat num_t2w));
     ("anat_ref", VStr (anatomical_reference_value (anatomical_reference inputs)));
     ("n_bold", VInt (Z.of_nat (List.length bold_series)));
     ("tasks", VStr tasks);
     ("std_spaces", VStr (join ", " (std_spaces inputs)));
     ("nstd_spaces", VStr (join ", " (nstd_spaces inputs)));
     ("recon_method",
      match recon_method inputs with
      | Some m => VStr (recon_method_value m)
      | None => VNone
      end);
     ("recon_status", VStr recon_status)].

(** What a run that succeeds leaves behind: the report written to
    [report.html] under the working directory and the entries of
    [self._results]. *)
Record Results : Type := {
  out_report : string;
  report_html : string;
  results_subject_id : option string
}.

(** [SubjectSummary._run_interface] (lines 121-127) with the call of
    [SummaryInterface._run_interface] (lines 76-82) unfolded: the segment
    is generated, then the file is opened and the segment written. *)
Definition _run_interface (w : World) (cwd : string) (inputs : Inputs) : result Results :=
  let recon_id := _recon_id inputs in
  do segment <- _generate_segment w recon_id inputs;
  let fname := os_path_join cwd "report.html" in
  do written <- write_text w fname segment;
  Ok {| out_report := fname; report_html := segment; results_subject_id := recon_id |}.

End SubjectSummary.

(** ** LabeledHistogram *)

Module LabeledHistogram.

(** A key of [rois]: a name given by [mapping], or the label itself. *)
Inductive name : Type :=
| Label (l : Z)
| Name (s : string).

Definition name_eqb (a b : name) : bool :=
  match a, b with
  | Label x, Label y => Z.eqb x y
  | Name x, Name y => String.eqb x y
  | _, _ => false
  end.

Record Inputs : Type := {
  in_file : string;
  label_file : trait string;
  mapping : trait (dict Z name);
  xlabel : string
}.

(** [np.unique]: the distinct values in ascending order. *)
Fixpoint unique_insert (x : Z) (l : list Z) : list Z :=
  match l with
  | [] => [x]
  | y :: l' =>
      if Z.ltb x y then x :: y :: l'
      else if Z.eqb x y then y :: l'
      else y :: unique_insert x l'
  end.

Definition unique (l : list Z) : list Z := fold_right unique_insert [] l.

Section Report.
(** The voxel type of the value image ([float32]) with its test [v > 0],
    and what the imaging libraries answer: the voxels of [in_file], and the
    labels of [label_file] on the grid of [in_file] (resampled with
    nearest-neighbour interpolation when shape or affine differ) as
    [uint16]; arrays are flattened in storage order. *)
Context {V : Type} (positive : V -> bool).
Context (get_fdata : string -> list V) (load_labels : string -> string -> list Z).

(** [data[labels == label]] for a mask of the shape of the data, the
    arrays being flattened: numpy raises [IndexError] for a mask whose
    shape differs from that of the data along an axis they share.  A value
    image of four dimensions under a label image of three, where the mask
    selects rows instead of values, is not embedded: the value image is
    taken to have the three dimensions of the label image. *)
Definition select (data : list V) (labels : list Z) (label : Z) : result (list V) :=
  if Nat.eqb (List.length labels) (List.length data) then
    Ok (map snd (filter (fun lv => Z.eqb (fst lv) label) (combine labels data)))
  else Raise IndexError.

(** [np.uint8(v > 0)] on one voxel. *)
Definition indicator (v : V) : Z := if positive v then 1%Z else 0%Z.

(** Lines 367-373: the local [labels]. *)
Definition labels (inputs : Inputs) (data : list V) : list Z :=
  match label_file inputs with
  | Defined (String c f) => load_labels (String c f) (in_file inputs)
  | _ => map indicator data
  end.

(** Line 376: the local [label_map]. *)
Definition label_map (inputs : Inputs) (uniq_labels : list Z) : dict Z name :=
  match mapping inputs with
  | Defined (item :: items) => item :: items
  | _ => map (fun label => (label, Label label)) uniq_labels
  end.

(** Line 378: the dict comprehension that builds [rois], label by label
    in the order of [label_map]; a name met again keeps its place and
    takes the later voxels. *)
Fixpoint rois (label_map : dict Z name) (keys : list Z) (data : list V) (labels : list Z)
  (acc : dict name (list V)) : result (dict name (list V)) :=
  match keys with
  | [] => Ok acc
  | label :: keys' =>
      let key := match dict_get Z.eqb label_map label with
                 | Some n => n
                 | None => Label label
                 end in
      do voxels <- select data labels label;
      rois label_map keys' data labels (dict_set name_eqb acc key voxels)
  end.

(** What is handed to [sns.histplot] and saved. *)
Record Plot : Type := {
  groups : dict name (list V);
  bins : nat;
  plot_xlabel : string;
  report_file : string
}.

(** [LabeledHistogram._generate_report]. *)
Definition _generate_report (out_report : string) (inputs : Inputs) : result Plot :=
  let data := get_fdata (in_file inputs) in
  let labels := labels inputs data in
  let uniq_labels := unique (filter (Z.ltb 0) labels) in
  let label_map := label_map inputs uniq_labels in
  do rois <- rois label_map (dict_keys label_map) data labels [];
  Ok {| groups := rois; bins := 50; plot_xlabel := xlabel inputs;
        report_file := out_report |}.

End Report.

End LabeledHistogram.

(** ** AboutSummary *)

Module AboutSummary.

Definition ABOUT_TEMPLATE : string :=
  line 1 "<ul>" ++
  line 2 "<li>NiBabies version: {version}</li>" ++
  line 2 "<li>NiBabies command: <code>{command}</code></li>" ++
  line 2 "<li>Date preprocessed: {date}</li>" ++
  line 1 "</ul>" ++
  line 0 "</div>".

Record Inputs : Type := {
  version : string;
  command : string
}.

(** [AboutSummary._generate_segment]; [strftime] is the clock of the
    machine, asked for the local time in the given format. *)
Definition _generate_segment (strftime : string -> string) (inputs : Inputs)
  : result string :=
  format ABOUT_TEMPLATE
    [("version", VStr (version inputs));
     ("command", VStr (command inputs));
     ("date", VStr (strftime "%Y-%m-%d %H:%M:%S %z"))].

End AboutSummary.

(** ** Character classes used in the statements *)

(** Every character of [s] passes the test [p]. *)
Fixpoint all_chars (p : ascii -> bool) (s : string) : bool :=
  match s with
  | EmptyString => true
  | String c s' => p c && all_chars p s'
  end.

(** The characters of [str(n)] for an [int]. *)
Definition digit_or_minus (c : ascii) : bool :=
  BIDS.in_range "0" "9" c || Ascii.eqb c "-".

(** A label of a BIDS entity: one or more characters of [[a-zA-Z0-9]]. *)
Definition bids_label (s : string) : Prop :=
  all_chars BIDS.alnum s = true /\ s <> EmptyString.

(** The six world directions of [axes], and the test that none of them
    starts with [axcode]: the loops of [get_world_pedir] find no match. *)
Definition world_directions : list string :=
  flat_map (fun ax => [fst ax; snd ax]) axes.

Definition unmatched (axcode : string) : bool :=
  forallb (fun d => negb (startswith d axcode)) world_directions.

(** The index of the voxel axis a phase-encoding direction names. *)
Definition pe_axis (p : FunctionalSummary.PEDirection) : nat :=
  match p with
  | FunctionalSummary.PE_i | FunctionalSummary.PE_i_minus => 0
  | FunctionalSummary.PE_j | FunctionalSummary.PE_j_minus => 1
  | FunctionalSummary.PE_k | FunctionalSummary.PE_k_minus => 2
  end.

(** The text of one line of the task list. *)
Definition rendered_task_line (item : string * nat) : string :=
  tabs 3 ++ "<li>Task: " ++ fst item ++ " (" ++ str_int (Z.of_nat (snd item)) ++
  " run" ++ (if Nat.eqb (snd item) 1 then EmptyString else "s") ++ ")</li>".

(** The text of the task list for the items of [sorted(counts.items())]. *)
Definition rendered_tasks (items : list (string * nat)) : string :=
  match items with
  | [] => EmptyString
  | _ :: _ =>
      let header := tabs 2 ++ ul_elem_desc in
      let footer := tabs 2 ++ "</ul>" in
      join nl (([header] ++ map rendered_task_line items) ++ [footer])%list
  end.






(** The pairs the loops of [get_world_pedir] go through, in order. *)
Definition world_flips : list (string * string) :=
  flat_map (fun ax => [ax; reversed ax]) axes.

(** Whether a phase-encoding direction carries the sign [-]. *)
Definition pe_inverted (p : FunctionalSummary.PEDirection) : bool :=
  match p with
  | FunctionalSummary.PE_i_minus | FunctionalSummary.PE_j_minus
  | FunctionalSummary.PE_k_minus => true
  | _ => false
  end.

(** The same axis with the other sign. *)
Definition pe_opposite (p : FunctionalSummary.PEDirection) : FunctionalSummary.PEDirection :=
  match p with
  | FunctionalSummary.PE_i => FunctionalSummary.PE_i_minus
  | FunctionalSummary.PE_i_minus => FunctionalSummary.PE_i
  | FunctionalSummary.PE_j => FunctionalSummary.PE_j_minus
  | FunctionalSummary.PE_j_minus => FunctionalSummary.PE_j
  | FunctionalSummary.PE_k => FunctionalSummary.PE_k_minus
  | FunctionalSummary.PE_k_minus => FunctionalSummary.PE_k
  end.

(** The voxels of [data] that carry [label] in [labels], in storage order. *)
Definition voxels_of {V : Type} (label : Z) (labels : list Z) (data : list V) : list V :=
  map snd (filter (fun lv => Z.eqb (fst lv) label) (combine labels data)).

(** The name a label is plotted under: [label_map.get(label, label)]. *)
Definition name_of (label_map : dict Z LabeledHistogram.name) (label : Z)
  : LabeledHistogram.name :=
  match dict_get Z.eqb label_map label with
  | Some n => n
  | None => LabeledHistogram.Label label
  end.

(** ** Sample inputs *)

Module Sample.

Definition functional : FunctionalSummary.Inputs :=
  {| FunctionalSummary.slice_timing := Defined FunctionalSummary.StcTrue;
     FunctionalSummary.distortion_correction := "None";
     FunctionalSummary.pe_direction := Some FunctionalSummary.PE_i_minus;
     FunctionalSummary.registration := FunctionalSummary.FSL;
     FunctionalSummary.fallback := true;
     FunctionalSummary.registration_dof := FunctionalSummary.Dof9;
     FunctionalSummary.registration_init := FunctionalSummary.InitT1w;
     FunctionalSummary.tr := fun _ => "2.5";
     FunctionalSummary.dummy_scans := Defined (Some 3%Z);
     FunctionalSummary.algo_dummy_scans := Defined 4%Z;
     FunctionalSummary.echo_idx := ["1"; "2"; "3"];
     FunctionalSummary.orientation := "LAS" |}.

(** The same series with the user's count of dummy scans left unset. *)
Definition functional_unset : FunctionalSummary.Inputs :=
  {| FunctionalSummary.slice_timing := Defined FunctionalSummary.StcTrue;
     FunctionalSummary.distortion_correction := "None";
     FunctionalSummary.pe_direction := Some FunctionalSummary.PE_i_minus;
     FunctionalSummary.registration := FunctionalSummary.FSL;
     FunctionalSummary.fallback := true;
     FunctionalSummary.registration_dof := FunctionalSummary.Dof9;
     FunctionalSummary.registration_init := FunctionalSummary.InitT1w;
     FunctionalSummary.tr := fun _ => "2.5";
     FunctionalSummary.dummy_scans := Undefined;
     FunctionalSummary.algo_dummy_scans := Defined 4%Z;
     FunctionalSummary.echo_idx := ["1"; "2"; "3"];
     FunctionalSummary.orientation := "LAS" |}.

Definition with_echoes (e : list string) : FunctionalSummary.Inputs :=
  {| FunctionalSummary.slice_timing := Undefined;
     FunctionalSummary.distortion_correction := "None";
     FunctionalSummary.pe_direction := None;
     FunctionalSummary.registration := FunctionalSummary.FreeSurfer;
     FunctionalSummary.fallback := false;
     FunctionalSummary.registration_dof := FunctionalSummary.Dof6;
     FunctionalSummary.registration_init := FunctionalSummary.InitHeader;
     FunctionalSummary.tr := fun _ => "0.8";
     FunctionalSummary.dummy_scans := Defined None;
     FunctionalSummary.algo_dummy_scans := Defined 2%Z;
     FunctionalSummary.echo_idx := e;
     FunctionalSummary.orientation := "RAS" |}.

Definition world : SubjectSummary.World :=
  {| SubjectSummary.ReconAll_cmdline := fun _ _ _ => Ok "echo recon-all: nothing to do";
     SubjectSummary.InfantReconAll_cmdline := fun _ _ _ => Ok "infant_recon_all";
     SubjectSummary.Path_exists := fun _ => Ok false;
     SubjectSummary.write_text := fun _ _ => Ok tt |}.

Definition subject (dir : trait string) (method : option SubjectSummary.ReconMethod)
  (bold : list SubjectSummary.series) : SubjectSummary.Inputs :=
  {| SubjectSummary.t1w := Defined ["sub-01_T1w.nii.gz"];
     SubjectSummary.t2w := Undefined;
     SubjectSummary.subjects_dir := dir;
     SubjectSummary.subject_id := "01";
     SubjectSummary.session_id := Undefined;
     SubjectSummary.anatomical_reference := SubjectSummary.T1w;
     SubjectSummary.bold := Defined bold;
     SubjectSummary.std_spaces := ["MNIInfant"; "fsLR"];
     SubjectSummary.nstd_spaces := [];
     SubjectSummary.recon_method := method;
     SubjectSummary.age := 7%Z |}.

Definition bold : list SubjectSummary.series :=
  [SubjectSummary.File "/data/sub-01/func/sub-01_task-rest_run-1_bold.nii.gz";
   SubjectSummary.Echoes ["sub-01_task-rest_run-2_echo-1_bold.nii.gz";
                          "sub-01_task-rest_run-2_echo-2_bold.nii.gz"];
   SubjectSummary.File "sub-01_task-nback_bold.nii.gz"].


Definition bold_paths : list string :=
  ["/data/sub-01/func/sub-01_task-rest_run-1_bold.nii.gz";
   "sub-01_task-rest_run-2_echo-1_bold.nii.gz";
   "sub-01_task-nback_bold.nii.gz"].

Definition histogram (mapping : trait (dict Z LabeledHistogram.name))
  : LabeledHistogram.Inputs :=
  {| LabeledHistogram.in_file := "sub-01_desc-preproc_T1w.nii.gz";
     LabeledHistogram.label_file := Undefined;
     LabeledHistogram.mapping := mapping;
     LabeledHistogram.xlabel := "voxels" |}.

End Sample.

(** * Properties *)

(** ** Strings *)

Lemma append_empty_r (s : string) : s ++ EmptyString = s.
Proof.
  induction s as [|c s IH]; simpl; [reflexivity | now rewrite IH].
Qed.

Lemma append_assoc (a b c : string) : (a ++ b) ++ c = a ++ (b ++ c).
Proof.
  induction a as [|x a IH]; simpl; [reflexivity | now rewrite IH].
Qed.

Lemma startswith_append (p s : string) : startswith (p ++ s) p = true.
Proof.
  induction p as [|c p IH]; simpl; [reflexivity |].
  now rewrite Ascii.eqb_refl, IH.
Qed.

Lemma contains_startswith (sub s : string) :
  startswith s sub = true -> contains sub s = true.
Proof.
  intros H. destruct s; simpl in *; rewrite H; reflexivity.
Qed.

Lemma contains_append (sub pre post : string) :
  contains sub (pre ++ sub ++ post) = true.
Proof.
  induction pre as [|c pre IH].
  - change (EmptyString ++ sub ++ post) with (sub ++ post).
    apply contains_startswith, startswith_append.
  - simpl. rewrite IH. apply orb_true_r.
Qed.

(** A text free of the first character of [sub] can be skipped when
    looking for [sub]. *)
Lemma contains_skip (c : ascii) (sub d r : string) :
  all_chars (fun x => negb (Ascii.eqb c x)) d = true ->
  contains (String c sub) (d ++ r) = contains (String c sub) r.
Proof.
  induction d as [|x d IH]; simpl; intros H; [reflexivity |].
  apply andb_true_iff in H as [Hx Hd].
  apply negb_true_iff in Hx. rewrite Hx. simpl. now apply IH.
Qed.

Lemma contains_skip_all (c : ascii) (sub d : string) :
  all_chars (fun x => negb (Ascii.eqb c x)) d = true ->
  contains (String c sub) d = false.
Proof.
  intros H. rewrite <- (append_empty_r d), contains_skip by assumption.
  reflexivity.
Qed.

Lemma string_of_uint_digits (d : Decimal.uint) :
  all_chars digit_or_minus (NilEmpty.string_of_uint d) = true.
Proof.
  induction d; simpl; auto.
Qed.

Lemma str_int_digits (n : Z) : all_chars digit_or_minus (str_int n) = true.
Proof.
  unfold str_int, NilZero.string_of_int, NilZero.string_of_uint.
  destruct (Z.to_int n) as [d|d]; destruct d; simpl;
    try reflexivity; apply string_of_uint_digits.
Qed.

Lemma all_chars_weaken (p q : ascii -> bool) (s : string) :
  (forall c, p c = true -> q c = true) ->
  all_chars p s = true -> all_chars q s = true.
Proof.
  intros Hpq. induction s as [|c s IH]; simpl; [reflexivity |].
  intros H. apply andb_true_iff in H as [Hc Hs].
  now rewrite (Hpq _ Hc), IH.
Qed.

(** [str(n)] holds no character outside the digits and the sign. *)
Lemma str_int_free (c : ascii) (n : Z) :
  digit_or_minus c = false ->
  all_chars (fun x => negb (Ascii.eqb c x)) (str_int n) = true.
Proof.
  intros Hc. apply all_chars_weaken with (p := digit_or_minus);
    [| apply str_int_digits].
  intros x Hx. apply negb_true_iff. apply Ascii.eqb_neq. congruence.
Qed.

Lemma startswith_append_both (x s p : string) :
  startswith (x ++ s) (x ++ p) = startswith s p.
Proof.
  induction x as [|c x IH]; simpl; [reflexivity |].
  now rewrite Ascii.eqb_refl, IH.
Qed.

Lemma contains_cons (sub s : string) (c : ascii) :
  contains sub s = true -> contains sub (String c s) = true.
Proof.
  intros H. simpl. rewrite H. apply orb_true_r.
Qed.

Lemma contains_append_r (sub a s : string) :
  contains sub s = true -> contains sub (a ++ s) = true.
Proof.
  intros H. induction a as [|c a IH]; simpl; [assumption |].
  rewrite IH. apply orb_true_r.
Qed.

(** Parsing a template is a closed computation. *)
Ltac parse_template :=
  match goal with
  | |- context [parse ?t None] =>
      let r := eval vm_compute in (parse t None) in
      change (parse t None) with r
  end.

(** Finding a line in a rendered segment: try the current position, else
    move past one character or one substituted value. *)
Ltac here :=
  apply contains_startswith; simpl;
  repeat (rewrite startswith_append_both; simpl);
  first [ reflexivity | apply startswith_append ].

Ltac find_line :=
  repeat first
    [ here
    | match goal with
      | |- contains _ (String _ _) = true => apply contains_cons
      | |- contains _ (_ ++ _) = true => apply contains_append_r
      end ].

(** ** FunctionalSummary *)

Section FunctionalSummaryFacts.
Import FunctionalSummary.

(** A generated segment carries the locals of [_generate_segment], each on
    its line of the template. *)
Lemma segment_lines inputs segment warnings :
  _generate_segment inputs = Ok (segment, warnings) ->
  exists stc reg pedir msg,
    FunctionalSummary.stc inputs = Ok stc /\
    FunctionalSummary.reg inputs = Ok reg /\
    get_world_pedir (orientation inputs)
      (option_map pe_direction_value (pe_direction inputs)) = Ok (pedir, warnings) /\
    dummy_scan_msg inputs = Ok msg /\
    contains ("<li>Slice timing correction: " ++ stc ++ "</li>") segment = true /\
    contains ("<li>Registration: " ++ reg ++ "</li>") segment = true /\
    contains ("<li>Phase-encoding (PE) direction: " ++ pedir ++ "</li>") segment = true /\
    contains ("<li>" ++ multiecho inputs ++ "</li>") segment = true /\
    contains ("<li>Non-steady-state volumes: " ++ msg ++ "</li>") segment = true.
Proof.
  unfold _generate_segment, format. parse_template.
  destruct (stc inputs) as [s|] eqn:E1; simpl; [| discriminate].
  destruct (reg inputs) as [r|] eqn:E2; simpl; [| discriminate].
  destruct (get_world_pedir _ _) as [[p lg]|] eqn:E3; simpl; [| discriminate].
  destruct (dummy_scan_msg inputs) as [m|] eqn:E4; simpl; [| discriminate].
  intros H. injection H as <- <-.
  exists s, r, p, m. repeat split; try reflexivity; find_line.
Qed.

(** C6.  The slice-timing description follows the fixed table: [True]
    gives "Applied", [False] gives "Not applied", ['TooShort'] gives
    "Skipped (too few volumes)" and an undefined input gives "n/a"; a
    generated segment shows that text on its slice-timing line. *)
Theorem slice_timing_description (inputs : Inputs) :
  let text :=
    match slice_timing inputs with
    | Defined StcTrue => "Applied"
    | Defined StcFalse => "Not applied"
    | Defined StcTooShort => "Skipped (too few volumes)"
    | Undefined => "n/a"
    end in
  stc inputs = Ok text /\
  forall segment warnings,
    _generate_segment inputs = Ok (segment, warnings) ->
    contains ("<li>Slice timing correction: " ++ text ++ "</li>") segment = true.
Proof.
  intros text.
  assert (Hstc : stc inputs = Ok text).
  { unfold stc, text. destruct (slice_timing inputs) as [|[]]; reflexivity. }
  split; [exact Hstc |].
  intros segment warnings H.
  destruct (segment_lines _ _ _ H) as (s & _ & _ & _ & Hs & _ & _ & _ & Hline & _).
  rewrite Hstc in Hs. injection Hs as Hs. rewrite Hs. exact Hline.
Qed.

Lemma slice_timing_description_witness :
  exists segment,
    _generate_segment Sample.functional = Ok (segment, []) /\
    contains "<li>Slice timing correction: Applied</li>" segment = true.
Proof.
  eexists. split; [vm_compute; reflexivity |].
  apply (proj2 (slice_timing_description Sample.functional) _ []).
  vm_compute. reflexivity.
Defined.

(** C1 (as stated, refuted).  With FSL, the fallback taken and 9 degrees
    of freedom configured, the description selected is the rigid
    registration text, which does not contain 9. *)
Lemma registration_description_fsl_fallback :
  exists text,
    reg Sample.functional = Ok text /\
    registration Sample.functional = FSL /\
    fallback Sample.functional = true /\
    registration_dof_value (registration_dof Sample.functional) = 9%Z /\
    contains (str_int 9) text = false.
Proof.
  eexists. repeat split; vm_compute; reflexivity.
Qed.

(** C1 (amended).  For every method, fallback flag and configured degrees
    of freedom a description is selected; it contains the configured
    value, except for FSL with the fallback taken, where it is the fixed
    rigid-registration text with 6 degrees of freedom.  A generated
    segment shows the description on its registration line. *)
Theorem registration_description (inputs : Inputs) :
  exists text,
    reg inputs = Ok text /\
    match registration inputs, fallback inputs with
    | FSL, true => text = "FSL <code>flirt</code> rigid registration - 6 dof"
    | _, _ =>
        contains (str_int (registration_dof_value (registration_dof inputs))) text = true
    end /\
    forall segment warnings,
      _generate_segment inputs = Ok (segment, warnings) ->
      contains ("<li>Registration: " ++ text ++ "</li>") segment = true.
Proof.
  assert (H : exists text,
    reg inputs = Ok text /\
    match registration inputs, fallback inputs with
    | FSL, true => text = "FSL <code>flirt</code> rigid registration - 6 dof"
    | _, _ =>
        contains (str_int (registration_dof_value (registration_dof inputs))) text = true
    end).
  { unfold reg.
    destruct (registration inputs), (fallback inputs), (registration_dof inputs);
      eexists; (split; [reflexivity |]); vm_compute; reflexivity. }
  destruct H as (text & Hreg & Hdof). exists text. split; [exact Hreg | split; [exact Hdof |]].
  intros segment warnings H.
  destruct (segment_lines _ _ _ H) as (_ & r & _ & _ & _ & Hr & _ & _ & _ & Hline & _).
  rewrite Hreg in Hr. injection Hr as <-. exact Hline.
Qed.

Lemma registration_description_witness :
  exists text segment warnings,
    _generate_segment (Sample.with_echoes ["1"]) = Ok (segment, warnings) /\
    contains "6" text = true /\
    contains ("<li>Registration: " ++ text ++ "</li>") segment = true.
Proof.
  destruct (registration_description (Sample.with_echoes ["1"])) as (text & _ & Hdof & Hseg).
  exists text. eexists. eexists.
  split; [vm_compute; reflexivity |].
  split; [exact Hdof |].
  eapply Hseg. vm_compute. reflexivity.
Defined.

(** The three forms of the dummy-scan message, with the clause that tells
    each apart. *)
Lemma dummy_scan_msg_forms (inputs : Inputs) :
  exists msg,
    dummy_scan_msg inputs = Ok msg /\
    match dummy_scans inputs, algo_dummy_scans inputs with
    | Defined (Some user), Defined algo =>
        if Z.eqb user algo then
          msg = str_int user ++ " (Confirmed: " ++ str_int algo ++ " automatically detected)" /\
          contains "(Confirmed:" msg = true /\ contains "(Warning:" msg = false
        else
          msg = str_int user ++ " (Warning: " ++ str_int algo ++ " automatically detected)" /\
          contains "(Confirmed:" msg = false /\ contains "(Warning:" msg = true
    | Defined (Some user), Undefined =>
        msg = str_int user ++ " (Warning: <undefined> automatically detected)" /\
        contains "(Confirmed:" msg = false /\ contains "(Warning:" msg = true
    | Defined None, Defined algo =>
        msg = str_int algo /\
        contains "(Confirmed:" msg = false /\ contains "(Warning:" msg = false
    | Defined None, Undefined =>
        msg = "<undefined>"
    | Undefined, Defined algo =>
        msg = "<undefined> (Warning: " ++ str_int algo ++ " automatically detected)" /\
        contains "(Confirmed:" msg = false /\ contains "(Warning:" msg = true
    | Undefined, Undefined =>
        msg = "<undefined> (Confirmed: <undefined> automatically detected)"
    end.
Proof.
  unfold dummy_scan_msg, format.
  assert (Hfree : forall n, all_chars (fun x => negb (Ascii.eqb "(" x)) (str_int n) = true)
    by (intros n; apply str_int_free; reflexivity).
  destruct (dummy_scans inputs) as [|[user|]], (algo_dummy_scans inputs) as [|algo];
    simpl dummy_scans_eq; simpl is_not_None; cbv zeta.
  - simpl join. parse_template. simpl. eexists. split; reflexivity.
  - simpl join. parse_template. simpl.
    eexists; (split; [reflexivity |]); split; [reflexivity |]. split.
    + simpl. rewrite contains_skip by apply Hfree. reflexivity.
    + find_line.
  - simpl join. parse_template. simpl.
    eexists; (split; [reflexivity |]); split; [reflexivity |]. split.
    + rewrite contains_skip by apply Hfree. reflexivity.
    + find_line.
  - destruct (Z.eqb user algo); simpl join; parse_template;
      simpl; eexists; (split; [reflexivity |]); split; try reflexivity.
    + split.
      * find_line.
      * rewrite contains_skip by apply Hfree. simpl.
        rewrite contains_skip by apply Hfree. reflexivity.
    + split.
      * rewrite contains_skip by apply Hfree. simpl.
        rewrite contains_skip by apply Hfree. reflexivity.
      * find_line.
  - parse_template. simpl. eexists. split; reflexivity.
  - parse_template. simpl. rewrite append_empty_r.
    eexists; (split; [reflexivity |]); split; [reflexivity |].
    split; apply contains_skip_all, Hfree.
Qed.

(** C2.  With a user count and a detected count both given, the
    dummy-scan message is the user count with a "Confirmed" clause when
    the two are equal and the user count with a "Warning" clause when they
    differ; with the user count given as [None] it is the bare detected
    count with neither clause.  With the user count left unset, however,
    the message is not the bare detected count: it is the text
    "<undefined>" followed by a "Warning" clause.  A generated segment
    shows the message on its line of non-steady-state volumes. *)
Theorem dummy_scan_message (inputs : Inputs) (algo : Z) :
  algo_dummy_scans inputs = Defined algo ->
  exists msg,
    dummy_scan_msg inputs = Ok msg /\
    match dummy_scans inputs with
    | Defined (Some user) =>
        if Z.eqb user algo then
          msg = str_int user ++ " (Confirmed: " ++ str_int algo ++ " automatically detected)" /\
          contains "(Confirmed:" msg = true /\ contains "(Warning:" msg = false
        else
          msg = str_int user ++ " (Warning: " ++ str_int algo ++ " automatically detected)" /\
          contains "(Confirmed:" msg = false /\ contains "(Warning:" msg = true
    | Defined None =>
        msg = str_int algo /\
        contains "(Confirmed:" msg = false /\ contains "(Warning:" msg = false
    | Undefined =>
        msg = "<undefined> (Warning: " ++ str_int algo ++ " automatically detected)" /\
        msg <> str_int algo /\
        contains "(Confirmed:" msg = false /\ contains "(Warning:" msg = true
    end /\
    forall segment warnings,
      _generate_segment inputs = Ok (segment, warnings) ->
      contains ("<li>Non-steady-state volumes: " ++ msg ++ "</li>") segment = true.
Proof.
  intros Halgo.
  destruct (dummy_scan_msg_forms inputs) as (msg & Hmsg & Hform).
  exists msg. split; [exact Hmsg | split].
  - rewrite Halgo in Hform.
    destruct (dummy_scans inputs) as [|[user|]]; try exact Hform.
    destruct Hform as (-> & Hc & Hw).
    split; [reflexivity | split; [| split; assumption]].
    intros Heq.
    pose proof (str_int_free "<" algo eq_refl) as Hfree.
    rewrite <- Heq in Hfree. discriminate Hfree.
  - intros segment warnings H.
    destruct (segment_lines _ _ _ H) as (_ & _ & _ & m & _ & _ & _ & Hm & _ & _ & _ & _ & Hline).
    rewrite Hmsg in Hm. injection Hm as <-. exact Hline.
Qed.

Lemma dummy_scan_message_witness :
  FunctionalSummary.dummy_scans Sample.functional_unset = Undefined /\
  exists segment,
    _generate_segment Sample.functional_unset = Ok (segment, []) /\
    contains
      "<li>Non-steady-state volumes: <undefined> (Warning: 4 automatically detected)</li>"
      segment = true.
Proof.
  split; [reflexivity |].
  destruct (dummy_scan_message Sample.functional_unset 4 eq_refl) as (msg & Hmsg & _ & Hseg).
  injection Hmsg as <-.
  eexists. split; [vm_compute; reflexivity |].
  eapply Hseg. vm_compute. reflexivity.
Defined.

(** C3.  The echo text is chosen by the number of echoes alone: one echo
    gives the "only echo ... processed in single-echo mode" text, more
    than two give "Multi-echo EPI sequence: N echoes.", and exactly two
    give the default "Single-echo EPI sequence."; inputs with the same
    number of echoes, other than one, get the same text.  A generated
    segment shows the text on a line of its own. *)
Theorem multiecho_by_length (inputs : Inputs) :
  let n_echos := List.length (echo_idx inputs) in
  (n_echos = 1%nat ->
   exists e, echo_idx inputs = [e] /\
     multiecho inputs =
       "Multi-echo EPI sequence: only echo " ++ e ++ " processed in single-echo mode.") /\
  (2 < n_echos ->
   multiecho inputs =
     "Multi-echo EPI sequence: " ++ str_int (Z.of_nat n_echos) ++ " echoes.") /\
  (n_echos = 2%nat -> multiecho inputs = "Single-echo EPI sequence.") /\
  (forall inputs',
     List.length (echo_idx inputs') = n_echos -> n_echos <> 1%nat ->
     multiecho inputs' = multiecho inputs) /\
  (forall segment warnings,
     _generate_segment inputs = Ok (segment, warnings) ->
     contains ("<li>" ++ multiecho inputs ++ "</li>") segment = true).
Proof.
  intros n_echos.
  split; [| split; [| split; [| split]]].
  - unfold multiecho. fold n_echos.
    intros Hn. destruct (echo_idx inputs) as [|e [|]] eqn:E; try discriminate.
    exists e. split; [reflexivity |]. rewrite Hn. reflexivity.
  - unfold multiecho. fold n_echos. intros Hn.
    destruct (Nat.ltb_spec 2 n_echos) as [_|]; [| lia].
    destruct (Nat.eqb_spec n_echos 1); [lia | reflexivity].
  - unfold multiecho. fold n_echos. intros Hn. rewrite Hn. reflexivity.
  - unfold multiecho. fold n_echos. intros inputs' Hlen Hn. rewrite Hlen.
    destruct (Nat.eqb_spec n_echos 1); [contradiction | reflexivity].
  - intros segment warnings H.
    destruct (segment_lines _ _ _ H) as (_ & _ & _ & _ & _ & _ & _ & _ & _ & _ & _ & Hline & _).
    exact Hline.
Qed.

Lemma multiecho_by_length_witness :
  multiecho (Sample.with_echoes ["2"]) =
    "Multi-echo EPI sequence: only echo 2 processed in single-echo mode." /\
  multiecho (Sample.with_echoes ["1"; "2"; "3"]) = "Multi-echo EPI sequence: 3 echoes." /\
  multiecho (Sample.with_echoes ["1"; "2"]) = "Single-echo EPI sequence." /\
  multiecho Sample.functional = multiecho (Sample.with_echoes ["1"; "2"; "3"]) /\
  exists segment,
    _generate_segment Sample.functional = Ok (segment, []) /\
    contains "<li>Multi-echo EPI sequence: 3 echoes.</li>" segment = true.
Proof.
  pose proof (multiecho_by_length (Sample.with_echoes ["2"])) as (H1 & _).
  pose proof (multiecho_by_length (Sample.with_echoes ["1"; "2"; "3"]))
    as (_ & H3 & _ & Hsame & _).
  pose proof (multiecho_by_length (Sample.with_echoes ["1"; "2"])) as (_ & _ & H2 & _).
  pose proof (multiecho_by_length Sample.functional) as (_ & _ & _ & _ & Hseg).
  split; [| split; [| split; [| split]]].
  - destruct (H1 eq_refl) as (e & He & Hm). injection He as <-. exact Hm.
  - apply H3. simpl. lia.
  - apply H2. reflexivity.
  - apply Hsame; simpl; [reflexivity | lia].
  - eexists. split; [vm_compute; reflexivity |].
    eapply Hseg. vm_compute. reflexivity.
Defined.

End FunctionalSummaryFacts.

Section WorldDirection.
Import FunctionalSummary.

Lemma first_flip_unmatched (axcode : string) (inv : bool) :
  unmatched axcode = true -> first_flip axcode inv = None.
Proof.
  unfold unmatched, first_flip. simpl.
  intros H. repeat (apply andb_true_iff in H as [?%negb_true_iff H]).
  destruct inv; simpl; repeat match goal with E : startswith _ _ = false |- _ => rewrite E; clear E end; reflexivity.
Qed.

Lemma get_none (s : string) (n : nat) :
  String.get n s = None <-> String.length s <= n.
Proof.
  revert n. induction s as [|c s IH]; intros [|n]; simpl;
    try (split; [intros; lia | reflexivity]).
  - split; [discriminate | lia].
  - rewrite IH. lia.
Qed.

(** On the directions of the input spec, [get_world_pedir] raises exactly
    when the orientation is too short to hold the axis of the direction. *)
Lemma get_world_pedir_raises (ornt : string) (p : PEDirection) :
  (exists e, get_world_pedir ornt (Some (pe_direction_value p)) = Raise e) <->
  String.length ornt <= pe_axis p.
Proof.
  rewrite <- get_none. unfold get_world_pedir, index.
  destruct p; simpl; destruct (String.get _ ornt) as [c|]; simpl;
    (split; [intros [e H] | intros H; try discriminate; eauto]);
    try reflexivity;
    match type of H with
    | context [first_flip ?a ?b] => destruct (first_flip a b); discriminate
    end.
Qed.

(** C4.  With phase-encoding direction 'i-' and an orientation that
    begins with 'L' (such as 'LAS') the world direction is 'Left-Right'
    and nothing is logged.  For any orientation, an unspecified direction,
    and a direction whose axis code starts none of the six world
    directions, give the fallback string, which begins with 'Could not be
    determined', together with one logged warning.  On an orientation
    triple no direction of the input spec raises an exception. *)
Theorem get_world_pedir_cases (ornt : string) :
  (startswith ornt "L" = true ->
   get_world_pedir ornt (Some (pe_direction_value PE_i_minus)) = Ok ("Left-Right", [])) /\
  get_world_pedir ornt None = Ok (pedir_fallback, [pedir_warning ornt None]) /\
  (forall p axcode,
     index ornt (pe_axis p) = Ok axcode -> unmatched axcode = true ->
     get_world_pedir ornt (Some (pe_direction_value p)) =
       Ok (pedir_fallback, [pedir_warning ornt (Some (pe_direction_value p))])) /\
  startswith pedir_fallback "Could not be determined" = true /\
  (String.length ornt = 3 ->
   forall pe, exists r, get_world_pedir ornt (option_map pe_direction_value pe) = Ok r).
Proof.
  split; [| split; [| split; [| split]]]; try reflexivity.
  - intros H. destruct ornt as [|c ornt]; cbn [startswith] in H; [discriminate |].
    destruct (Ascii.eqb_spec "L" c) as [<-|]; [reflexivity | discriminate].
  - intros p axcode Hax Hun. unfold get_world_pedir.
    destruct p; simpl in Hax |- *; rewrite Hax; simpl;
      rewrite first_flip_unmatched by assumption; reflexivity.
  - intros Hlen [p|]; [| eexists; reflexivity].
    destruct (get_world_pedir ornt (option_map pe_direction_value (Some p)))
      as [r|e] eqn:E; [eauto |].
    assert (Hshort : String.length ornt <= pe_axis p)
      by (apply get_world_pedir_raises; eauto).
    destruct p; simpl in Hshort; lia.
Qed.

Lemma get_world_pedir_cases_witness :
  get_world_pedir "LAS" (Some "i-") = Ok ("Left-Right", []) /\
  get_world_pedir "XAS" (Some "i") =
    Ok ("Could not be determined - assuming Anterior-Posterior",
        ["Cannot determine world direction of phase encoding. Orientation: XAS; PE dir: i"]) /\
  exists r, get_world_pedir "LAS" (Some "k-") = Ok r.
Proof.
  split; [| split].
  - apply (proj1 (get_world_pedir_cases "LAS")). reflexivity.
  - apply (proj1 (proj2 (proj2 (get_world_pedir_cases "XAS"))) PE_i "X"); reflexivity.
  - apply (proj2 (proj2 (proj2 (proj2 (get_world_pedir_cases "LAS")))) eq_refl
             (Some PE_k_minus)).
Defined.

End WorldDirection.
(** ** The BIDS pattern on well-formed names *)

Section BIDSFacts.
Import BIDS.

Lemma span_alnum_word (w r : string) :
  all_chars alnum w = true ->
  match r with String c _ => alnum c = false | EmptyString => True end ->
  span_alnum (w ++ r) = (w, r).
Proof.
  intros Hw Hr. induction w as [|c w IH]; simpl in *.
  - destruct r as [|c r]; [reflexivity |]. simpl. rewrite Hr. reflexivity.
  - apply andb_true_iff in Hw as [Hc Hw]. rewrite Hc, (IH Hw). reflexivity.
Qed.

Lemma entity_word (key w r : string) :
  all_chars alnum w = true -> w <> EmptyString ->
  match r with String c _ => alnum c = false | EmptyString => True end ->
  forall s, strip_prefix (key ++ "-") s = Some (w ++ r) ->
  entity key s = Some (key ++ "-" ++ w, r).
Proof.
  intros Hw Hne Hr s Hs. unfold entity. rewrite Hs, (span_alnum_word _ _ Hw Hr).
  destruct w; [contradiction | reflexivity].
Qed.

Lemma after_directory_no_slash (s : string) :
  all_chars (fun c => negb (Ascii.eqb c "/")) s = true -> after_directory s = None.
Proof.
  induction s as [|c s IH]; simpl; [reflexivity |].
  intros H. apply andb_true_iff in H as [Hc Hs]. apply negb_true_iff in Hc.
  rewrite (IH Hs), Hc. destruct (Ascii.eqb c newline); reflexivity.
Qed.

Lemma after_directory_name (dir name : string) (g : groupdict) :
  all_chars (fun c => negb (Ascii.eqb c newline)) (dir ++ "/") = true ->
  all_chars (fun c => negb (Ascii.eqb c "/")) name = true ->
  entities name = Some g ->
  after_directory ((dir ++ "/") ++ name) = Some g.
Proof.
  intros Hdir Hname Hg. induction dir as [|c dir IH]; simpl in *.
  - rewrite (after_directory_no_slash _ Hname). exact Hg.
  - apply andb_true_iff in Hdir as [Hc Hdir]. apply negb_true_iff in Hc.
    rewrite Hc, (IH Hdir). reflexivity.
Qed.

Lemma all_chars_append (p : ascii -> bool) (a b : string) :
  all_chars p (a ++ b) = all_chars p a && all_chars p b.
Proof.
  induction a as [|c a IH]; simpl; [reflexivity |].
  rewrite IH. apply andb_assoc.
Qed.

Lemma alnum_not_slash (s : string) :
  all_chars alnum s = true ->
  all_chars (fun c => negb (Ascii.eqb c "/")) s = true.
Proof.
  apply all_chars_weaken. intros c Hc.
  destruct (Ascii.eqb_spec c "/") as [->|]; [discriminate | reflexivity].
Qed.

Lemma optional_entity_ses_skip (r : string) :
  optional_entity "ses" ("_task-" ++ r) = (None, "_task-" ++ r).
Proof. reflexivity. Qed.

Lemma optional_entity_task (task rest : string) :
  bids_label task ->
  match rest with String c _ => alnum c = false | EmptyString => True end ->
  optional_entity "task" ("_task-" ++ task ++ rest) = (Some ("task-" ++ task), rest).
Proof.
  intros [Htask Hne] Hrest. cbn [optional_entity append].
  change (Ascii.eqb "_" "_") with true. cbn iota.
  rewrite (entity_word "task" task rest Htask Hne Hrest); reflexivity.
Qed.

(** The entities of [sub-<label>_task-<task><rest>]. *)
Lemma entities_task (sub task rest : string) :
  bids_label sub -> bids_label task ->
  match rest with String c _ => alnum c = false | EmptyString => True end ->
  exists g,
    entities ("sub-" ++ sub ++ "_task-" ++ task ++ rest) = Some g /\
    task_id g = Some ("task-" ++ task).
Proof.
  intros [Hsub Hsub'] Htask Hrest. unfold entities.
  rewrite (entity_word "sub" sub ("_task-" ++ task ++ rest) Hsub Hsub');
    [| reflexivity | reflexivity].
  rewrite optional_entity_ses_skip, (optional_entity_task task rest Htask Hrest).
  destruct (optional_entity "acq" rest) as [acq r1].
  destruct (optional_entity "rec" r1) as [rec r2].
  destruct (optional_entity "run" r2) as [run r3].
  eexists. split; reflexivity.
Qed.

(** X8.  A file named [sub-<label>_task-<task>...], alone or under a
    directory, whatever the directory holds on its first line, is counted
    under [<task>]. *)
Lemma task_of_bids_name (dir sub task rest : string) :
  all_chars (fun c => negb (Ascii.eqb c newline)) dir = true ->
  bids_label sub -> bids_label task ->
  match rest with String c _ => alnum c = false | EmptyString => True end ->
  all_chars (fun c => negb (Ascii.eqb c "/")) rest = true ->
  let name := "sub-" ++ sub ++ "_task-" ++ task ++ rest in
  SubjectSummary.task_of name = Ok task /\
  SubjectSummary.task_of ((dir ++ "/") ++ name) = Ok task.
Proof.
  intros Hdir Hsub Htask Hrest Hslash name.
  destruct (entities_task sub task rest Hsub Htask Hrest) as (g & Hg & Ht).
  fold name in Hg.
  assert (Hname : all_chars (fun c => negb (Ascii.eqb c "/")) name = true).
  { unfold name. cbn [append all_chars]. rewrite all_chars_append.
    cbn [append all_chars]. rewrite all_chars_append.
    rewrite (alnum_not_slash _ (proj1 Hsub)), (alnum_not_slash _ (proj1 Htask)), Hslash.
    reflexivity. }
  unfold SubjectSummary.task_of, search. split.
  - rewrite (after_directory_no_slash _ Hname), Hg, Ht. reflexivity.
  - rewrite (after_directory_name dir name g); [rewrite Ht; reflexivity | | exact Hname | exact Hg].
    rewrite all_chars_append, Hdir. reflexivity.
Qed.

End BIDSFacts.

(** ** Counter and sorted *)

Section CounterFacts.





End CounterFacts.

Section SortedFacts.
Context {A : Type} (ltb : A -> A -> bool).
Hypothesis ltb_asym : forall a b, ltb a b = true -> ltb b a = false.

Lemma insert_Permutation (x : A) (l : list A) : Permutation (insert ltb x l) (x :: l).
Proof.
  induction l as [|y l IH]; simpl; [reflexivity |].
  destruct (ltb y x); [| reflexivity].
  rewrite IH. apply perm_swap.
Qed.

Lemma sorted_Permutation (l : list A) : Permutation (sorted ltb l) l.
Proof.
  induction l as [|x l IH]; simpl; [reflexivity |].
  rewrite insert_Permutation. now constructor.
Qed.



End SortedFacts.



(** ** mapM *)

Section MapM.
Context {A B : Type} (f : A -> result B).

Lemma mapM_Forall2 (l : list A) (l' : list B) :
  mapM f l = Ok l' <-> Forall2 (fun a b => f a = Ok b) l l'.
Proof.
  revert l'. induction l as [|a l IH]; intros l'; simpl.
  - split; [intros H; injection H as <-; constructor | intros H; inversion H; reflexivity].
  - split.
    + destruct (f a) as [b|] eqn:E; simpl; [| discriminate].
      destruct (mapM f l) as [bs|]; simpl; [| discriminate].
      intros H. injection H as <-. constructor; [exact E | now apply IH].
    + intros H. inversion H as [|? b ? bs Hb Hbs]; subst.
      rewrite Hb. simpl. apply IH in Hbs. rewrite Hbs. reflexivity.
Qed.

Lemma mapM_map (g : A -> B) (l : list A) :
  (forall a, f a = Ok (g a)) -> mapM f l = Ok (map g l).
Proof.
  intros H. induction l as [|a l IH]; simpl; [reflexivity |].
  rewrite H, IH. reflexivity.
Qed.

(** The first element on which [f] raises decides the exception. *)
Lemma mapM_first_raise (pre post : list A) (a : A) (e : exn) :
  Forall (fun x => exists b, f x = Ok b) pre -> f a = Raise e ->
  mapM f (pre ++ a :: post) = Raise e.
Proof.
  intros Hpre Ha. induction Hpre as [|x pre [b Hb] _ IH]; simpl.
  - rewrite Ha. reflexivity.
  - rewrite Hb. simpl. rewrite IH. reflexivity.
Qed.

Lemma mapM_raise (l : list A) (a : A) (e : exn) :
  In a l -> f a = Raise e -> exists e', mapM f l = Raise e'.
Proof.
  intros Hin Ha. induction l as [|x l IH]; simpl; [contradiction |].
  destruct Hin as [->|Hin].
  - rewrite Ha. simpl. eauto.
  - destruct (f x); simpl; [| eauto].
    destruct (IH Hin) as [e' ->]. simpl. eauto.
Qed.

End MapM.

(** ** SubjectSummary *)

Section SubjectSummaryFacts.
Import SubjectSummary.

Lemma task_line_text (id : string) (n : nat) :
  task_line (id, n) = Ok (rendered_task_line (id, n)).
Proof.
  unfold task_line, rendered_task_line, format. parse_template. reflexivity.
Qed.

Lemma subject_segment_lines w recon_id inputs segment :
  _generate_segment w recon_id inputs = Ok segment ->
  exists status paths counts tasks,
    recon_status w recon_id inputs = Ok (Some status) /\
    bold_series inputs = Ok paths /\
    SubjectSummary.counts paths = Ok counts /\
    SubjectSummary.tasks counts = Ok tasks /\
    contains ("<li>Surface reconstruction status: " ++ status ++ "</li>") segment = true /\
    contains tasks segment = true.
Proof.
  unfold _generate_segment, format. parse_template.
  destruct (recon_status w recon_id inputs) as [status|] eqn:E1; cbn [bind]; [| discriminate].
  destruct (bold_series inputs) as [paths|] eqn:E2; cbn [bind]; [| discriminate].
  destruct (counts paths) as [c|] eqn:E3; cbn [bind]; [| discriminate].
  destruct (tasks c) as [t|] eqn:E4; cbn [bind]; [| discriminate].
  destruct status as [status|]; cbn [bind local]; [| discriminate].
  destruct (session_id inputs), (recon_method inputs); simpl;
    intros H; injection H as <-;
    exists status, paths, c, t; repeat split; try reflexivity; try assumption.
  all: find_line.
Qed.

Lemma insert_cons {A : Type} (ltb : A -> A -> bool) (x : A) (l : list A) :
  exists y l', insert ltb x l = y :: l'.
Proof. destruct l as [|z l]; simpl; [| destruct (ltb z x)]; eauto. Qed.

Lemma tasks_text (c : dict string nat) :
  tasks c = Ok (rendered_tasks (sorted item_ltb c)).
Proof.
  unfold tasks, rendered_tasks. destruct c as [|item c]; [reflexivity |].
  rewrite (mapM_map _ rendered_task_line) by (intros [id n]; apply task_line_text).
  cbn [bind]. destruct (insert_cons item_ltb item (sorted item_ltb c)) as (y & l' & E).
  cbn [sorted]. rewrite E. reflexivity.
Qed.

Lemma counts_Counter (paths ids : list string) :
  Forall2 (fun path id => task_of path = Ok id) paths ids ->
  counts paths = Ok (Counter ids).
Proof.
  intros H. unfold counts. apply mapM_Forall2 in H. rewrite H. reflexivity.
Qed.

(** With the status bound and every series carrying a task, the segment
    is produced. *)
Lemma generate_segment_ok w recon_id inputs status paths ids :
  recon_status w recon_id inputs = Ok (Some status) ->
  bold_series inputs = Ok paths ->
  Forall2 (fun path id => task_of path = Ok id) paths ids ->
  exists segment, _generate_segment w recon_id inputs = Ok segment.
Proof.
  intros Hs Hb Ht. unfold _generate_segment, format. parse_template.
  rewrite Hs, Hb. cbn [bind]. rewrite (counts_Counter _ _ Ht). cbn [bind].
  rewrite tasks_text. cbn [bind local].
  generalize (rendered_tasks (sorted item_ltb (Counter ids))). intros t.
  destruct (session_id inputs), (recon_method inputs); simpl; eexists; reflexivity.
Qed.

(** With the status left unbound, no segment is produced. *)
Lemma generate_segment_unbound w recon_id inputs :
  recon_status w recon_id inputs = Ok None ->
  (exists e, _generate_segment w recon_id inputs = Raise e) /\
  forall paths ids,
    bold_series inputs = Ok paths ->
    Forall2 (fun path id => task_of path = Ok id) paths ids ->
    _generate_segment w recon_id inputs = Raise (UnboundLocalError "recon_status").
Proof.
  intros Hs. unfold _generate_segment. rewrite Hs. cbn [bind]. split.
  - destruct (bold_series inputs) as [paths|]; cbn [bind]; [| eauto].
    destruct (counts paths) as [c|]; cbn [bind]; [| eauto].
    rewrite tasks_text. cbn [bind local]. eauto.
  - intros paths ids Hb Ht. rewrite Hb. cbn [bind].
    rewrite (counts_Counter _ _ Ht). cbn [bind]. rewrite tasks_text. reflexivity.
Qed.

Lemma recon_status_no_dir w recon_id inputs :
  truthy_str (subjects_dir inputs) = false ->
  recon_status w recon_id inputs = Ok (Some "Not run").
Proof.
  unfold recon_status, truthy_str.
  destruct (subjects_dir inputs) as [|[|c d]]; [reflexivity | reflexivity | discriminate].
Qed.

(** C7.  When no subjects directory is configured the reconstruction
    status is 'Not run', whatever the reconstruction method: that is the
    value bound to the status, every segment produced shows it on the
    status line, and a segment is produced as soon as every functional
    series carries a task. *)
Theorem recon_status_not_run w recon_id inputs :
  truthy_str (subjects_dir inputs) = false ->
  recon_status w recon_id inputs = Ok (Some "Not run") /\
  (forall segment,
     _generate_segment w recon_id inputs = Ok segment ->
     contains "<li>Surface reconstruction status: Not run</li>" segment = true) /\
  (forall paths ids,
     bold_series inputs = Ok paths ->
     Forall2 (fun path id => task_of path = Ok id) paths ids ->
     exists segment, _generate_segment w recon_id inputs = Ok segment).
Proof.
  intros Hdir. pose proof (recon_status_no_dir w recon_id inputs Hdir) as Hs.
  split; [exact Hs | split].
  - intros segment H.
    destruct (subject_segment_lines _ _ _ _ H) as (status & _ & _ & _ & Hs' & _ & _ & _ & Hline & _).
    rewrite Hs in Hs'. injection Hs' as <-. exact Hline.
  - intros paths ids Hb Ht. exact (generate_segment_ok _ _ _ _ _ _ Hs Hb Ht).
Qed.

Lemma recon_status_not_run_witness :
  exists segment,
    _generate_segment Sample.world (Some "sub-01")
      (Sample.subject Undefined (Some mcribs) Sample.bold) = Ok segment /\
    contains "<li>Surface reconstruction status: Not run</li>" segment = true.
Proof.
  pose proof (recon_status_not_run Sample.world (Some "sub-01")
                (Sample.subject Undefined (Some mcribs) Sample.bold) eq_refl)
    as (_ & Hline & Hok).
  destruct (Hok Sample.bold_paths ["rest"; "rest"; "nback"]) as [segment Hsegment].
  - vm_compute. reflexivity.
  - repeat constructor.
  - exists segment. split; [exact Hsegment | exact (Hline segment Hsegment)].
Defined.

End SubjectSummaryFacts.
Section SubjectSummaryClaims.
Import SubjectSummary.






(** C9.  A segment is produced only when the subjects directory is unset
    or the reconstruction method is one of 'freesurfer', 'infantfs' and
    'mcribs'.  With the directory set and the method [None] no branch
    binds the status and no segment is produced: the run ends in an
    exception, which is the unbound-local error for [recon_status]
    whenever every functional series carries a task. *)
Theorem recon_status_unbound w recon_id inputs :
  (forall segment,
     _generate_segment w recon_id inputs = Ok segment ->
     truthy_str (subjects_dir inputs) = false \/
     exists m, recon_method inputs = Some m) /\
  (truthy_str (subjects_dir inputs) = true -> recon_method inputs = None ->
   recon_status w recon_id inputs = Ok None /\
   (exists e, _generate_segment w recon_id inputs = Raise e) /\
   forall paths ids,
     bold_series inputs = Ok paths ->
     Forall2 (fun path id => task_of path = Ok id) paths ids ->
     _generate_segment w recon_id inputs = Raise (UnboundLocalError "recon_status")).
Proof.
  assert (Hunbound : truthy_str (subjects_dir inputs) = true ->
                     recon_method inputs = None ->
                     recon_status w recon_id inputs = Ok None).
  { unfold recon_status, truthy_str.
    destruct (subjects_dir inputs) as [|[|c d]]; try discriminate.
    intros _ ->. reflexivity. }
  split.
  - intros segment H.
    destruct (truthy_str (subjects_dir inputs)) eqn:Hdir; [right | left; reflexivity].
    destruct (recon_method inputs) as [m|] eqn:Hm; [eauto |].
    destruct (generate_segment_unbound w recon_id inputs (Hunbound eq_refl eq_refl))
      as [[e He] _].
    congruence.
  - intros Hdir Hm. split; [auto |].
    apply generate_segment_unbound. auto.
Qed.

Lemma recon_status_unbound_witness :
  _generate_segment Sample.world (Some "sub-01")
    (Sample.subject (Defined "/out/sourcedata/freesurfer") None Sample.bold) =
  Raise (UnboundLocalError "recon_status") /\
  (truthy_str (Defined "/out/sourcedata/freesurfer") = false \/
   exists m, Some freesurfer = Some m).
Proof.
  split.
  - apply (proj2 (proj2 (proj2 (recon_status_unbound Sample.world (Some "sub-01")
             (Sample.subject (Defined "/out/sourcedata/freesurfer") None Sample.bold))
             eq_refl eq_refl)) Sample.bold_paths ["rest"; "rest"; "nback"]).
    + vm_compute. reflexivity.
    + repeat constructor.
  - eapply (proj1 (recon_status_unbound Sample.world (Some "sub-01")
              (Sample.subject (Defined "/out/sourcedata/freesurfer") (Some freesurfer)
                 Sample.bold))).
    vm_compute. reflexivity.
Defined.

Lemma mapM_In {A B : Type} (f : A -> result B) (l : list A) (l' : list B) (a : A) (b : B) :
  mapM f l = Ok l' -> In a l -> f a = Ok b -> In b l'.
Proof.
  intros H. apply mapM_Forall2 in H.
  induction H as [|x y l l' Hxy _ IH]; simpl; [contradiction |].
  intros [->|Hin] Hb; [left; congruence | right; auto].
Qed.

(** C10.  Every functional series has to carry a task entity: a segment
    is produced only when each series yields a task identifier.  A series
    whose file name matches the pattern without a task entity makes the
    slice of [None] raise: no segment is produced, whatever else the
    inputs hold, and when the series before it carry a task the exception
    raised is that [TypeError]. *)
Theorem task_entity_required w recon_id inputs :
  (forall segment,
     _generate_segment w recon_id inputs = Ok segment ->
     exists paths ids,
       bold_series inputs = Ok paths /\
       Forall2 (fun path id => task_of path = Ok id) paths ids) /\
  (forall series s path groups,
     bold inputs = Defined series -> In s series -> first_echo s = Ok path ->
     BIDS.search path = Some groups -> BIDS.task_id groups = None ->
     task_of path = Raise (TypeError "'NoneType' object is not subscriptable") /\
     (exists e, _generate_segment w recon_id inputs = Raise e) /\
     forall status pre post,
       recon_status w recon_id inputs = Ok status ->
       bold_series inputs = Ok (pre ++ path :: post)%list ->
       Forall (fun p => exists id, task_of p = Ok id) pre ->
       _generate_segment w recon_id inputs =
         Raise (TypeError "'NoneType' object is not subscriptable")).
Proof.
  split.
  - intros segment H.
    destruct (subject_segment_lines _ _ _ _ H) as (_ & paths & c & _ & _ & Hb & Hc & _).
    exists paths. unfold counts in Hc.
    destruct (mapM task_of paths) as [ids|] eqn:E; [| discriminate].
    exists ids. split; [exact Hb | now apply mapM_Forall2].
  - intros series s path groups Hbold Hin Hfirst Hsearch Htask.
    assert (Hraise : task_of path = Raise (TypeError "'NoneType' object is not subscriptable")).
    { unfold task_of. rewrite Hsearch, Htask. reflexivity. }
    split; [exact Hraise | split].
    + unfold _generate_segment.
      destruct (recon_status w recon_id inputs) as [status|]; cbn [bind]; [| eauto].
      destruct (bold_series inputs) as [paths|] eqn:Hb; cbn [bind]; [| eauto].
      unfold bold_series in Hb. rewrite Hbold in Hb.
      pose proof (mapM_In _ _ _ _ _ Hb Hin Hfirst) as Hpath.
      destruct (mapM_raise task_of paths path _ Hpath Hraise) as [e He].
      unfold counts. rewrite He. cbn [bind]. eauto.
    + intros status pre post Hs Hb Hpre. unfold _generate_segment, counts.
      rewrite Hs, Hb. cbn [bind].
      rewrite (mapM_first_raise task_of pre post path _ Hpre Hraise). reflexivity.
Qed.

Lemma task_entity_required_witness :
  _generate_segment Sample.world (Some "sub-01")
    (Sample.subject Undefined None
       [File "sub-01_task-rest_bold.nii.gz"; File "sub-01_acq-mb_bold.nii.gz"]) =
  Raise (TypeError "'NoneType' object is not subscriptable") /\
  exists paths ids,
    bold_series (Sample.subject Undefined None Sample.bold) = Ok paths /\
    Forall2 (fun path id => task_of path = Ok id) paths ids.
Proof.
  split.
  - refine (proj2 (proj2 (proj2 (task_entity_required Sample.world (Some "sub-01")
              (Sample.subject Undefined None
                 [File "sub-01_task-rest_bold.nii.gz"; File "sub-01_acq-mb_bold.nii.gz"]))
              _ (File "sub-01_acq-mb_bold.nii.gz") "sub-01_acq-mb_bold.nii.gz" _
              eq_refl _ eq_refl eq_refl eq_refl))
            (Some "Not run") ["sub-01_task-rest_bold.nii.gz"] [] eq_refl eq_refl _).
    + simpl. auto.
    + repeat constructor. exists "rest". reflexivity.
  - eapply (proj1 (task_entity_required Sample.world (Some "sub-01")
              (Sample.subject Undefined None Sample.bold))).
    vm_compute. reflexivity.
Defined.

End SubjectSummaryClaims.

(** ** LabeledHistogram *)

Section LabeledHistogramFacts.
Import LabeledHistogram.
Context {V : Type} (positive : V -> bool).
Context (get_fdata : string -> list V) (load_labels : string -> string -> list Z).

Lemma unique_indicator (data : list V) :
  unique (filter (Z.ltb 0) (map (indicator positive) data)) =
    if existsb positive data then [1%Z] else [].
Proof.
  unfold indicator. induction data as [|v data IH]; simpl; [reflexivity |].
  destruct (positive v); simpl; [| exact IH].
  unfold unique in *. simpl. rewrite IH.
  destruct (existsb positive data); reflexivity.
Qed.

Lemma select_indicator (data : list V) :
  select data (map (indicator positive) data) 1 = Ok (filter positive data).
Proof.
  unfold select. rewrite length_map, Nat.eqb_refl. f_equal.
  unfold indicator. induction data as [|v data IH]; simpl; [reflexivity |].
  destruct (positive v); simpl; rewrite IH; reflexivity.
Qed.

(** C8 (amended).  With no label image and no mapping supplied, the label
    array is the indicator of the strictly positive values of the value
    image; when some value is strictly positive exactly one group is
    plotted, under label 1 and made of the positive values in order, and
    when none is, no group is plotted. *)
Theorem implicit_label_groups (out_report : string) (inputs : Inputs) :
  truthy_str (label_file inputs) = false ->
  truthy_list (mapping inputs) = false ->
  let data := get_fdata (in_file inputs) in
  labels positive load_labels inputs data =
    map (fun v => if positive v then 1%Z else 0%Z) data /\
  exists plot,
    _generate_report positive get_fdata load_labels out_report inputs = Ok plot /\
    groups plot =
      if existsb positive data then [(Label 1, filter positive data)] else [].
Proof.
  intros Hlabel Hmapping data.
  assert (Hlabels : labels positive load_labels inputs data = map (indicator positive) data).
  { unfold labels. destruct (label_file inputs) as [|[|c f]]; try reflexivity.
    discriminate. }
  split; [exact Hlabels |].
  unfold _generate_report. fold data. rewrite Hlabels, unique_indicator.
  assert (Hmap : forall u, label_map inputs u = map (fun label => (label, Label label)) u).
  { intros u. unfold label_map. destruct (mapping inputs) as [|[|item items]];
      try reflexivity. discriminate. }
  rewrite Hmap. destruct (existsb positive data); simpl.
  - rewrite select_indicator. simpl. eexists. split; reflexivity.
  - eexists. split; reflexivity.
Qed.

End LabeledHistogramFacts.

Section LabeledHistogramSamples.
Import LabeledHistogram.

(** C8 (as stated, refuted).  With no label image, a value image without
    a strictly positive value gives no group at all, and a mapping that
    names two labels gives two groups, the second one empty. *)
Lemma implicit_label_groups_not_one :
  (exists plot,
     _generate_report (Z.ltb 0) (fun _ => [0; -2]%Z) (fun _ _ => [])
       "report.svg" (Sample.histogram Undefined) = Ok plot /\
     groups plot = []) /\
  (exists plot,
     _generate_report (Z.ltb 0) (fun _ => [3; 0; 5]%Z) (fun _ _ => [])
       "report.svg"
       (Sample.histogram (Defined [(1%Z, Name "GM"); (2%Z, Name "WM")])) = Ok plot /\
     groups plot = [(Name "GM", [3; 5]%Z); (Name "WM", [])]).
Proof.
  split; eexists; split; reflexivity.
Qed.

Lemma implicit_label_groups_witness :
  exists plot,
    _generate_report (Z.ltb 0) (fun _ => [3; 0; -1; 5]%Z) (fun _ _ => [])
      "report.svg" (Sample.histogram Undefined) = Ok plot /\
    groups plot = [(Label 1, [3; 5]%Z)].
Proof.
  exact (proj2 (implicit_label_groups (Z.ltb 0) (fun _ => [3; 0; -1; 5]%Z) (fun _ _ => [])
                  "report.svg" (Sample.histogram Undefined) eq_refl eq_refl)).
Defined.

End LabeledHistogramSamples.

(** * Further properties *)

(** ** The world phase-encoding direction *)

Section WorldDirectionMore.
Import FunctionalSummary.

(** What the loops return on a one-letter axis code, spelled out. *)
Lemma first_flip_letter (c : ascii) (inv : bool) :
  first_flip (String c EmptyString) inv =
    if Ascii.eqb c "R" then Some (if inv then ("Right", "Left") else ("Left", "Right"))
    else if Ascii.eqb c "L" then Some (if inv then ("Left", "Right") else ("Right", "Left"))
    else if Ascii.eqb c "A" then Some (if inv then ("Anterior", "Posterior") else ("Posterior", "Anterior"))
    else if Ascii.eqb c "P" then Some (if inv then ("Posterior", "Anterior") else ("Anterior", "Posterior"))
    else if Ascii.eqb c "S" then Some (if inv then ("Superior", "Inferior") else ("Inferior", "Superior"))
    else if Ascii.eqb c "I" then Some (if inv then ("Inferior", "Superior") else ("Superior", "Inferior"))
    else None.
Proof.
  unfold first_flip.
  destruct inv;
    cbn [flat_map axes app reversed fst snd find index_bool startswith negb];
    rewrite !andb_true_r;
    repeat match goal with
    | |- context [Ascii.eqb c ?x] =>
        destruct (Ascii.eqb_spec c x) as [->|]; [reflexivity |]
    end; reflexivity.
Qed.
End WorldDirectionMore.

Section WorldDirectionExtra.
Import FunctionalSummary.

(** On a direction of the input spec and an orientation that holds its
    axis, [get_world_pedir] is decided by the loops on that axis code. *)
Lemma get_world_pedir_axcode (ornt : string) (p : PEDirection) (c : ascii) :
  String.get (pe_axis p) ornt = Some c ->
  get_world_pedir ornt (Some (pe_direction_value p)) =
    match first_flip (String c EmptyString) (pe_inverted p) with
    | Some flip => Ok (fst flip ++ "-" ++ snd flip, [])
    | None => Ok (pedir_fallback, [pedir_warning ornt (Some (pe_direction_value p))])
    end.
Proof.
  intros Hc. unfold get_world_pedir, index.
  destruct p;
    cbn [pe_direction_value pe_axis pe_inverted String.get bind getitem dict_get ax_idcs
         String.eqb Ascii.eqb Bool.eqb slice_from join fst snd] in Hc |- *;
    rewrite Hc; reflexivity.
Qed.

Lemma unmatched_letter (c : ascii) :
  unmatched (String c EmptyString) =
    negb (Ascii.eqb c "R") && negb (Ascii.eqb c "L") && negb (Ascii.eqb c "A") &&
    negb (Ascii.eqb c "P") && negb (Ascii.eqb c "S") && negb (Ascii.eqb c "I").
Proof.
  unfold unmatched. cbn. rewrite !andb_true_r, !andb_assoc. reflexivity.
Qed.

(** X1.  When the axis code of the phase-encoding axis is one of R, L, A,
    P, S, I, the answer is a pair of opposite world directions and nothing
    is logged; the direction that starts with the axis code comes first
    when the phase-encoding direction carries the sign [-], and last when
    it does not. *)
Theorem pedir_sign_convention (ornt : string) (p : PEDirection) (c : ascii) :
  String.get (pe_axis p) ornt = Some c ->
  unmatched (String c EmptyString) = false ->
  exists a b,
    In (a, b) world_flips /\
    get_world_pedir ornt (Some (pe_direction_value p)) = Ok (a ++ "-" ++ b, []) /\
    startswith (if pe_inverted p then a else b) (String c EmptyString) = true.
Proof.
  intros Hc Hm. rewrite (get_world_pedir_axcode _ _ _ Hc), first_flip_letter.
  rewrite unmatched_letter in Hm. unfold world_flips. cbn [flat_map axes app reversed fst snd].
  repeat match goal with
  | |- context [Ascii.eqb c ?x] =>
      destruct (Ascii.eqb_spec c x) as [->|];
        [destruct (pe_inverted p); do 2 eexists;
         (split; [| split; [reflexivity | reflexivity]]); simpl; tauto |]
  end.
  discriminate.
Qed.

Lemma pedir_sign_convention_witness :
  exists a b,
    In (a, b) world_flips /\
    get_world_pedir "RPI" (Some "j") = Ok (a ++ "-" ++ b, []) /\
    startswith b "P" = true.
Proof.
  exact (pedir_sign_convention "RPI" PE_j "P" eq_refl eq_refl).
Defined.

(** X2.  Changing the sign of the phase-encoding direction reverses the
    answer: the two directions either both fail to index the orientation,
    or both fall back with a warning, or give the same pair of world
    directions in opposite orders. *)
Theorem pedir_sign_reverses (ornt : string) (p : PEDirection) :
  let ask q := get_world_pedir ornt (Some (pe_direction_value q)) in
  (ask p = Raise IndexError /\ ask (pe_opposite p) = Raise IndexError) \/
  (ask p = Ok (pedir_fallback, [pedir_warning ornt (Some (pe_direction_value p))]) /\
   ask (pe_opposite p) =
     Ok (pedir_fallback, [pedir_warning ornt (Some (pe_direction_value (pe_opposite p)))])) \/
  (exists a b,
     In (a, b) world_flips /\
     ask p = Ok (a ++ "-" ++ b, []) /\ ask (pe_opposite p) = Ok (b ++ "-" ++ a, [])).
Proof.
  intros ask. subst ask. cbv beta.
  assert (Haxis : pe_axis (pe_opposite p) = pe_axis p) by (destruct p; reflexivity).
  assert (Hinv : pe_inverted (pe_opposite p) = negb (pe_inverted p)) by (destruct p; reflexivity).
  destruct (String.get (pe_axis p) ornt) as [c|] eqn:Hc.
  - right.
    rewrite (get_world_pedir_axcode ornt p c Hc).
    rewrite (get_world_pedir_axcode ornt (pe_opposite p) c) by (rewrite Haxis; exact Hc).
    rewrite Hinv, !first_flip_letter.
    unfold world_flips. cbn [flat_map axes app reversed fst snd].
    repeat match goal with
    | |- context [Ascii.eqb c ?x] =>
        destruct (Ascii.eqb_spec c x) as [->|];
          [right; destruct (pe_inverted p); do 2 eexists;
           (split; [| split; [reflexivity | reflexivity]]); simpl; tauto |]
    end.
    left. split; reflexivity.
  - left. unfold get_world_pedir, index.
    destruct p; cbn in Hc |- *; rewrite Hc; split; reflexivity.
Qed.

(** X3.  Whatever the orientation and the direction, an answer of
    [get_world_pedir] is either the fallback string with exactly one
    warning, which quotes the orientation and the direction, or one of the
    six ordered pairs of opposite world directions with nothing logged. *)
Theorem pedir_answers (ornt : string) (pe : option string) (answer : string) (warnings : log) :
  get_world_pedir ornt pe = Ok (answer, warnings) ->
  (answer = pedir_fallback /\ warnings = [pedir_warning ornt pe]) \/
  (warnings = [] /\ exists a b, In (a, b) world_flips /\ answer = a ++ "-" ++ b).
Proof.
  unfold get_world_pedir. intros H.
  assert (Hfound : forall found : option (string * string),
    (forall flip, found = Some flip -> In flip world_flips) ->
    match found with
    | Some flip => Ok (join "-" [fst flip; snd flip], [])
    | None => Ok (pedir_fallback, [pedir_warning ornt pe])
    end = Ok (answer, warnings) ->
    (answer = pedir_fallback /\ warnings = [pedir_warning ornt pe]) \/
    (warnings = [] /\ exists a b, In (a, b) world_flips /\ answer = a ++ "-" ++ b)).
  { intros [[a b]|] Hin E; injection E as <- <-.
    - right. split; [reflexivity |]. exists a, b. split; [apply Hin |]; reflexivity.
    - left. split; reflexivity. }
  destruct pe as [pe|]; cbn [bind] in H; [| apply (Hfound None); [discriminate | exact H]].
  destruct (index pe 0) as [ax|]; cbn [bind] in H; [| discriminate].
  destruct (getitem ax_idcs ax) as [i|]; cbn [bind] in H; [| discriminate].
  destruct (index ornt i) as [axcode|]; cbn [bind] in H; [| discriminate].
  apply (Hfound (first_flip axcode (String.eqb (slice_from 1 pe) "-"))); [| exact H].
  intros flip Hflip. unfold first_flip in Hflip.
  apply find_some in Hflip. exact (proj1 Hflip).
Qed.

Lemma pedir_answers_witness :
  ("Could not be determined - assuming Anterior-Posterior" = pedir_fallback /\
   ["Cannot determine world direction of phase encoding. Orientation: L?S; PE dir: j"] =
     [pedir_warning "L?S" (Some "j")]) \/
  ([pedir_warning "L?S" (Some "j")] = [] /\
   exists a b, In (a, b) world_flips /\
     "Could not be determined - assuming Anterior-Posterior" = a ++ "-" ++ b).
Proof.
  apply (pedir_answers "L?S" (Some "j")). reflexivity.
Defined.

(** X4.  [get_world_pedir] is written for the directions i, j, k with an
    optional sign: the empty direction raises [IndexError], and a
    direction that begins with any other character raises [KeyError] on
    that character, whatever the orientation. *)
Theorem pedir_unknown_axis (ornt : string) :
  get_world_pedir ornt (Some EmptyString) = Raise IndexError /\
  forall c rest,
    Ascii.eqb c "i" || Ascii.eqb c "j" || Ascii.eqb c "k" = false ->
    get_world_pedir ornt (Some (String c rest)) = Raise (KeyError (String c EmptyString)).
Proof.
  split; [reflexivity |].
  intros c rest H. apply orb_false_iff in H as [H Hk]. apply orb_false_iff in H as [Hi Hj].
  unfold get_world_pedir, index, getitem.
  cbn [String.get bind dict_get ax_idcs String.eqb].
  rewrite (Ascii.eqb_sym "i" c), (Ascii.eqb_sym "j" c), (Ascii.eqb_sym "k" c), Hi, Hj, Hk.
  reflexivity.
Qed.

Lemma pedir_unknown_axis_witness :
  get_world_pedir "LAS" (Some "x-") = Raise (KeyError "x").
Proof.
  apply (proj2 (pedir_unknown_axis "LAS") "x"%char "-"). reflexivity.
Defined.

End WorldDirectionExtra.

(** ** The outcome of FunctionalSummary *)

Section FunctionalSummaryExtra.
Import FunctionalSummary.

Lemma stc_ok (inputs : Inputs) : exists text, stc inputs = Ok text.
Proof.
  unfold stc. destruct (slice_timing inputs) as [|[]]; eexists; reflexivity.
Qed.

Lemma reg_ok (inputs : Inputs) : exists text, reg inputs = Ok text.
Proof.
  unfold reg. destruct (registration inputs); eexists; reflexivity.
Qed.

(** The segment is generated exactly when the world direction is found,
    and hands on its warnings. *)
Lemma functional_segment_follows_pedir (inputs : Inputs) :
  match get_world_pedir (orientation inputs)
          (option_map pe_direction_value (pe_direction inputs)) with
  | Ok (answer, warnings) => exists segment, _generate_segment inputs = Ok (segment, warnings)
  | Raise e => _generate_segment inputs = Raise e
  end.
Proof.
  unfold _generate_segment, format. parse_template.
  destruct (stc_ok inputs) as [s ->]. destruct (reg_ok inputs) as [r ->].
  destruct (dummy_scan_msg_forms inputs) as (m & -> & _). cbn [bind].
  destruct (get_world_pedir _ _) as [[answer warnings]|e]; cbn [bind]; [| reflexivity].
  generalize (multiecho inputs). intros me. simpl. eexists. reflexivity.
Qed.

Lemma get_world_pedir_raise_index (ornt : string) (pe : option PEDirection) (e : exn) :
  get_world_pedir ornt (option_map pe_direction_value pe) = Raise e ->
  e = IndexError /\ exists p, pe = Some p /\ String.length ornt <= pe_axis p.
Proof.
  destruct pe as [p|]; [| discriminate]. intros H.
  assert (Hlen : String.length ornt <= pe_axis p)
    by (apply get_world_pedir_raises; eauto).
  split; [| eauto]. apply get_none in Hlen.
  cbn [option_map] in H. unfold get_world_pedir, index in H.
  destruct p;
    cbn [pe_direction_value pe_axis String.get bind getitem dict_get ax_idcs
         String.eqb Ascii.eqb Bool.eqb] in H, Hlen;
    rewrite Hlen in H; cbn [bind] in H; congruence.
Qed.

(** X5.  [FunctionalSummary._generate_segment] fails in one way only: with
    [IndexError], when the orientation is too short to hold the axis of
    the phase-encoding direction.  When it succeeds it logs nothing, or
    the one warning of [get_world_pedir], in which case the segment shows
    the fallback text as the phase-encoding direction. *)
Theorem functional_segment_outcome (inputs : Inputs) :
  (forall e,
     _generate_segment inputs = Raise e <->
     e = IndexError /\
     exists p, pe_direction inputs = Some p /\
               String.length (orientation inputs) <= pe_axis p) /\
  (forall segment warnings,
     _generate_segment inputs = Ok (segment, warnings) ->
     warnings = [] \/
     (warnings = [pedir_warning (orientation inputs)
                    (option_map pe_direction_value (pe_direction inputs))] /\
      contains ("<li>Phase-encoding (PE) direction: " ++ pedir_fallback ++ "</li>")
        segment = true)).
Proof.
  pose proof (functional_segment_follows_pedir inputs) as Hfollow.
  split.
  - intros e. split.
    + intros H. apply get_world_pedir_raise_index.
      destruct (get_world_pedir _ _) as [[answer warnings]|e'].
      * destruct Hfollow as [segment Hs]. congruence.
      * congruence.
    + intros (-> & p & Hp & Hlen).
      assert (Hraise : exists e, get_world_pedir (orientation inputs)
                (Some (pe_direction_value p)) = Raise e)
        by (apply get_world_pedir_raises; exact Hlen).
      destruct Hraise as [e He]. rewrite Hp in Hfollow. cbn [option_map] in Hfollow.
      rewrite He in Hfollow. rewrite Hfollow. f_equal.
      apply (get_world_pedir_raise_index _ (Some p) e He).
  - intros segment warnings H.
    destruct (segment_lines _ _ _ H) as (_ & _ & answer & _ & _ & _ & Hpedir & _ & _ & _ & Hline & _).
    unfold get_world_pedir in Hpedir.
    destruct (match option_map pe_direction_value (pe_direction inputs) with
              | Some pe => _ | None => _ end) as [[flip|]|]; cbn [bind] in Hpedir;
      try discriminate; injection Hpedir as <- <-.
    + left. reflexivity.
    + right. split; [reflexivity | exact Hline].
Qed.

Lemma functional_segment_outcome_witness :
  _generate_segment
    {| slice_timing := Undefined; distortion_correction := "None";
       pe_direction := Some PE_k; registration := FSL; fallback := false;
       registration_dof := Dof6; registration_init := InitHeader;
       tr := fun _ => "2"; dummy_scans := Defined None; algo_dummy_scans := Defined 0%Z;
       echo_idx := []; orientation := "LA" |} = Raise IndexError /\
  exists segment,
    _generate_segment (Sample.with_echoes []) =
      Ok (segment, [pedir_warning "RAS" None]) /\
    contains ("<li>Phase-encoding (PE) direction: " ++ pedir_fallback ++ "</li>")
      segment = true.
Proof.
  split.
  - apply (proj1 (functional_segment_outcome _)). split; [reflexivity |].
    exists PE_k. split; [reflexivity | simpl; lia].
  - eexists. split; [vm_compute; reflexivity |].
    destruct (proj2 (functional_segment_outcome (Sample.with_echoes [])) _
                [pedir_warning "RAS" None] eq_refl) as [H|[_ H]];
      [discriminate | exact H].
Defined.

End FunctionalSummaryExtra.

(** ** Reading task identifiers off paths *)

Section BIDSExtra.
Import BIDS.

Lemma span_alnum_spec (s v r : string) :
  span_alnum s = (v, r) -> all_chars alnum v = true /\ s = v ++ r.
Proof.
  revert v r. induction s as [|c s IH]; simpl; intros v r H.
  - injection H as <- <-. split; reflexivity.
  - destruct (alnum c) eqn:Hc.
    + destruct (span_alnum s) as [v' r'].
      injection H as <- <-. destruct (IH _ _ eq_refl) as [Hv ->].
      split; [simpl; rewrite Hc; exact Hv | reflexivity].
    + injection H as <- <-. split; reflexivity.
Qed.

Lemma strip_prefix_spec (p s r : string) : strip_prefix p s = Some r -> s = p ++ r.
Proof.
  revert s. induction p as [|a p IH]; simpl; intros s H.
  - congruence.
  - destruct s as [|b s]; [discriminate |].
    destruct (Ascii.eqb_spec a b) as [->|]; [| discriminate].
    rewrite (IH _ H). reflexivity.
Qed.

Lemma strip_prefix_startswith (p s : string) :
  startswith s p = false -> strip_prefix p s = None.
Proof.
  revert s. induction p as [|a p IH]; simpl; intros s H; [discriminate |].
  destruct s as [|b s]; [reflexivity |].
  destruct (Ascii.eqb a b); [apply IH; exact H | reflexivity].
Qed.

(** A matched entity is [key-<label>] and stands at the start of the text. *)
Lemma entity_spec (key s t rest : string) :
  entity key s = Some (t, rest) ->
  exists v, bids_label v /\ t = key ++ "-" ++ v /\ s = t ++ rest.
Proof.
  unfold entity. destruct (strip_prefix (key ++ "-") s) as [r|] eqn:Hp; [| discriminate].
  destruct (span_alnum r) as [v r'] eqn:Hs.
  destruct (span_alnum_spec _ _ _ Hs) as [Hv ->].
  apply strip_prefix_spec in Hp.
  destruct v as [|c v]; [discriminate |]. intros H. injection H as <- <-.
  exists (String c v). split; [split; [exact Hv | discriminate] |].
  split; [reflexivity |]. rewrite Hp, !append_assoc. reflexivity.
Qed.

Lemma optional_entity_spec (key s rest : string) (o : option string) :
  optional_entity key s = (o, rest) ->
  match o with
  | Some t => (exists v, bids_label v /\ t = key ++ "-" ++ v) /\ s = "_" ++ t ++ rest
  | None => s = rest
  end.
Proof.
  unfold optional_entity. destruct s as [|c s]; [intros H; injection H as <- <-; reflexivity |].
  destruct (Ascii.eqb_spec c "_") as [->|]; [| intros H; injection H as <- <-; reflexivity].
  destruct (entity key s) as [[t r]|] eqn:He; intros H; injection H as <- <-; [| reflexivity].
  destruct (entity_spec _ _ _ _ He) as (v & Hv & Ht & ->). split; [eauto | reflexivity].
Qed.

(** The task entity of a match is [task-<label>], found in the text after
    an underscore. *)
Lemma entities_task_spec (s : string) (g : groupdict) (t : string) :
  entities s = Some g -> task_id g = Some t ->
  (exists v, bids_label v /\ t = "task-" ++ v) /\ contains ("_" ++ t) s = true.
Proof.
  unfold entities. destruct (entity "sub" s) as [[sub r0]|] eqn:Hsub; [| discriminate].
  destruct (optional_entity "ses" r0) as [ses r1] eqn:Hses.
  destruct (optional_entity "task" r1) as [task r2] eqn:Htask.
  destruct (optional_entity "acq" r2) as [acq r3].
  destruct (optional_entity "rec" r3) as [rec r4].
  destruct (optional_entity "run" r4) as [run r5].
  intros H Ht. injection H as <-. cbn [task_id] in Ht. subst task.
  destruct (entity_spec _ _ _ _ Hsub) as (_ & _ & _ & ->).
  apply optional_entity_spec in Htask. destruct Htask as [Hv ->].
  split; [exact Hv |].
  apply contains_append_r.
  apply optional_entity_spec in Hses. destruct ses as [ses|].
  - destruct Hses as [_ ->]. change ("_" ++ ses ++ "_" ++ t ++ r2)
      with (("_" ++ ses) ++ "_" ++ t ++ r2) || rewrite <- append_assoc.
    apply contains_append_r. apply (contains_append ("_" ++ t) EmptyString r2).
  - subst r0. apply (contains_append ("_" ++ t) EmptyString r2).
Qed.

Lemma after_directory_spec (s : string) (g : groupdict) :
  after_directory s = Some g -> exists pre s', s = pre ++ s' /\ entities s' = Some g.
Proof.
  induction s as [|c s IH]; simpl; [discriminate |].
  destruct (Ascii.eqb c newline); [discriminate |].
  destruct (after_directory s) as [g'|].
  - intros H. injection H as <-. destruct (IH eq_refl) as (pre & s' & -> & Hs').
    exists (String c pre), s'. split; [reflexivity | exact Hs'].
  - destruct (Ascii.eqb c "/"); [| discriminate].
    intros H. exists (String c EmptyString), s. split; [reflexivity | exact H].
Qed.

(** X9.  A task identifier read off a path is never empty and holds
    letters and digits only, and the path holds it, written after
    [_task-]. *)
Theorem task_of_label (path id : string) :
  SubjectSummary.task_of path = Ok id ->
  bids_label id /\ contains ("_task-" ++ id) path = true.
Proof.
  unfold SubjectSummary.task_of, search.
  destruct (after_directory path) as [g|] eqn:Hdir.
  - destruct (after_directory_spec _ _ Hdir) as (pre & s' & -> & Hent).
    destruct (task_id g) as [t|] eqn:Ht; [| discriminate].
    destruct (entities_task_spec _ _ _ Hent Ht) as [(v & Hv & ->) Hin].
    intros H. injection H as <-. split; [exact Hv |].
    apply contains_append_r. exact Hin.
  - destruct (entities path) as [g|] eqn:Hent; [| discriminate].
    destruct (task_id g) as [t|] eqn:Ht; [| discriminate].
    destruct (entities_task_spec _ _ _ Hent Ht) as [(v & Hv & ->) Hin].
    intros H. injection H as <-. split; [exact Hv | exact Hin].
Qed.

Lemma task_of_label_witness :
  bids_label "rest" /\
  contains "_task-rest" "/data/sub-01/func/sub-01_task-rest_run-1_bold.nii.gz" = true.
Proof.
  apply (task_of_label "/data/sub-01/func/sub-01_task-rest_run-1_bold.nii.gz" "rest").
  reflexivity.
Defined.

(** A file of a dataset, alone and under its directory. *)
Lemma task_of_bids_name_witness :
  SubjectSummary.task_of "sub-01_task-nback_run-2_bold.nii.gz" = Ok "nback" /\
  SubjectSummary.task_of "/data/sub-01/func/sub-01_task-nback_run-2_bold.nii.gz" = Ok "nback".
Proof.
  assert (Hsub : bids_label "01") by (split; [reflexivity | discriminate]).
  assert (Htask : bids_label "nback") by (split; [reflexivity | discriminate]).
  exact (task_of_bids_name "/data/sub-01/func" "01" "nback" "_run-2_bold.nii.gz"
           eq_refl Hsub Htask eq_refl eq_refl).
Defined.

Lemma entity_mismatch (key s : string) :
  startswith s (key ++ "-") = false -> entity key s = None.
Proof.
  intros H. unfold entity. rewrite (strip_prefix_startswith _ _ H). reflexivity.
Qed.

Lemma optional_entity_mismatch (key s : string) :
  startswith s ("_" ++ key ++ "-") = false -> optional_entity key s = (None, s).
Proof.
  unfold optional_entity. destruct s as [|c s]; [reflexivity |].
  cbn [append startswith]. rewrite (Ascii.eqb_sym "_" c).
  destruct (Ascii.eqb c "_"); [| reflexivity].
  cbn [andb]. intros H. rewrite (entity_mismatch _ _ H). reflexivity.
Qed.

(** X10.  The task entity is looked for right after the subject and the
    session only: a name in which something else follows them, another
    entity or the suffix, has no task for the pattern, and counting it
    raises the [TypeError] of the slice of [None]. *)
Theorem task_entity_out_of_place (sub rest : string) (ses : option string) :
  bids_label sub ->
  match ses with Some l => bids_label l | None => startswith rest "_ses-" = false end ->
  startswith rest "_task-" = false ->
  match rest with String c _ => alnum c = false | EmptyString => True end ->
  all_chars (fun c => negb (Ascii.eqb c "/")) rest = true ->
  SubjectSummary.task_of
    ("sub-" ++ sub ++ match ses with Some l => "_ses-" ++ l ++ rest | None => rest end) =
  Raise (TypeError "'NoneType' object is not subscriptable").
Proof.
  intros [Hsub Hsub'] Hses Htask Hrest Hslash.
  assert (Hent : exists g,
    entities ("sub-" ++ sub ++ match ses with Some l => "_ses-" ++ l ++ rest | None => rest end)
      = Some g /\ task_id g = None).
  { unfold entities. destruct ses as [l|].
    - destruct Hses as [Hl Hl'].
      rewrite (entity_word "sub" sub ("_ses-" ++ l ++ rest) Hsub Hsub');
        [| reflexivity | reflexivity].
      assert (Hs : optional_entity "ses" ("_ses-" ++ l ++ rest) = (Some ("ses-" ++ l), rest)).
      { cbn [optional_entity append]. change (Ascii.eqb "_" "_") with true. cbn iota.
        rewrite (entity_word "ses" l rest Hl Hl' Hrest); reflexivity. }
      rewrite Hs, (optional_entity_mismatch "task" rest Htask).
      destruct (optional_entity "acq" rest) as [acq r1].
      destruct (optional_entity "rec" r1) as [rec r2].
      destruct (optional_entity "run" r2) as [run r3].
      eexists. split; reflexivity.
    - rewrite (entity_word "sub" sub rest Hsub Hsub' Hrest); [| reflexivity].
      rewrite (optional_entity_mismatch "ses" rest Hses),
              (optional_entity_mismatch "task" rest Htask).
      destruct (optional_entity "acq" rest) as [acq r1].
      destruct (optional_entity "rec" r1) as [rec r2].
      destruct (optional_entity "run" r2) as [run r3].
      eexists. split; reflexivity. }
  destruct Hent as (g & Hg & Hnone).
  assert (Hname : all_chars (fun c => negb (Ascii.eqb c "/"))
            ("sub-" ++ sub ++ match ses with Some l => "_ses-" ++ l ++ rest | None => rest end)
          = true).
  { cbn [append all_chars]. rewrite all_chars_append, (alnum_not_slash _ Hsub).
    destruct ses as [l|]; [| exact Hslash].
    cbn [append all_chars]. rewrite all_chars_append, (alnum_not_slash _ (proj1 Hses)).
    exact Hslash. }
  unfold SubjectSummary.task_of, search.
  rewrite (after_directory_no_slash _ Hname), Hg, Hnone. reflexivity.
Qed.

Lemma task_entity_out_of_place_witness :
  SubjectSummary.task_of "sub-01_acq-mb_task-rest_bold.nii.gz" =
    Raise (TypeError "'NoneType' object is not subscriptable") /\
  SubjectSummary.task_of "sub-01_ses-2_bold.nii.gz" =
    Raise (TypeError "'NoneType' object is not subscriptable").
Proof.
  assert (Hsub : bids_label "01") by (split; [reflexivity | discriminate]).
  assert (Hses : bids_label "2") by (split; [reflexivity | discriminate]).
  split.
  - exact (task_entity_out_of_place "01" "_acq-mb_task-rest_bold.nii.gz" None
             Hsub eq_refl eq_refl eq_refl eq_refl).
  - exact (task_entity_out_of_place "01" "_bold.nii.gz" (Some "2")
             Hsub Hses eq_refl eq_refl eq_refl).
Defined.

Lemma contains_false (sub s : string) :
  contains sub s = false ->
  startswith s sub = false /\
  match s with String _ s' => contains sub s' = false | EmptyString => True end.
Proof.
  destruct s as [|c s]; simpl; intros H; apply orb_false_iff in H as [H1 H2]; auto.
Qed.

(** X11.  A path that nowhere holds [sub-] is not matched at all, and
    counting it raises the [AttributeError] of [None.groupdict]. *)
Theorem task_of_no_subject (path : string) :
  contains "sub-" path = false ->
  SubjectSummary.task_of path =
    Raise (AttributeError "'NoneType' object has no attribute 'groupdict'").
Proof.
  intros H.
  assert (Hent : forall s, contains "sub-" s = false -> entities s = None).
  { intros s Hs. unfold entities.
    rewrite (entity_mismatch "sub" s (proj1 (contains_false _ _ Hs))). reflexivity. }
  assert (Hdir : forall s, contains "sub-" s = false -> after_directory s = None).
  { induction s as [|c s IH]; [reflexivity |]. intros Hs.
    destruct (contains_false _ _ Hs) as [_ Hs']. cbn [after_directory].
    rewrite (IH Hs'), (Hent _ Hs').
    destruct (Ascii.eqb c newline), (Ascii.eqb c "/"); reflexivity. }
  unfold SubjectSummary.task_of, search. rewrite (Hdir _ H), (Hent _ H). reflexivity.
Qed.

Lemma task_of_no_subject_witness :
  SubjectSummary.task_of "/data/func/task-rest_bold.nii.gz" =
    Raise (AttributeError "'NoneType' object has no attribute 'groupdict'").
Proof.
  apply task_of_no_subject. reflexivity.
Defined.

End BIDSExtra.

(** ** The numbers shown by SubjectSummary *)

Section SubjectSummaryExtra.
Import SubjectSummary.

Lemma counter_add_sum (k : string) (d : dict string nat) :
  list_sum (map snd (counter_add k d)) = S (list_sum (map snd d)).
Proof.
  induction d as [|[k' n] d IH]; simpl; [reflexivity |].
  destruct (String.eqb k' k); simpl; [reflexivity | rewrite IH; lia].
Qed.

Lemma Counter_sum (keys : list string) :
  list_sum (map snd (Counter keys)) = List.length keys.
Proof.
  unfold Counter.
  assert (H : forall acc,
    list_sum (map snd (fold_left (fun d k => counter_add k d) keys acc)) =
    list_sum (map snd acc) + List.length keys).
  { induction keys as [|k keys IH]; intros acc; simpl; [lia |].
    rewrite IH, counter_add_sum. lia. }
  rewrite H. reflexivity.
Qed.

Lemma list_sum_Permutation (l l' : list nat) :
  Permutation l l' -> list_sum l = list_sum l'.
Proof.
  induction 1; simpl; lia.
Qed.

Lemma mapM_length {A B : Type} (f : A -> result B) (l : list A) (l' : list B) :
  mapM f l = Ok l' -> List.length l' = List.length l.
Proof.
  intros H. apply mapM_Forall2 in H. symmetry. exact (Forall2_length H).
Qed.

(** A generated segment shows the numbers of images and of series. *)
Lemma subject_segment_numbers w recon_id inputs segment :
  _generate_segment w recon_id inputs = Ok segment ->
  exists paths,
    bold_series inputs = Ok paths /\
    contains ("<li>Functional series: " ++ str_int (Z.of_nat (List.length paths)) ++ "</li>")
      segment = true /\
    contains ("<li>Structural images: " ++ str_int (Z.of_nat (len_trait (t1w inputs))) ++
              " T1-weighted, " ++ str_int (Z.of_nat (len_trait (t2w inputs))) ++
              " T2-weighted</li>") segment = true.
Proof.
  assert (Hnum : forall t : trait (list string),
            (if truthy_list t then len_trait t else O) = len_trait t)
    by (intros [|[|x l]]; reflexivity).
  unfold _generate_segment, format. parse_template. rewrite !Hnum.
  destruct (recon_status w recon_id inputs) as [status|] eqn:E1; cbn [bind]; [| discriminate].
  destruct (bold_series inputs) as [paths|] eqn:E2; cbn [bind]; [| discriminate].
  destruct (counts paths) as [c|] eqn:E3; cbn [bind]; [| discriminate].
  destruct (tasks c) as [t|] eqn:E4; cbn [bind]; [| discriminate].
  destruct status as [status|]; cbn [bind local]; [| discriminate].
  destruct (session_id inputs), (recon_method inputs); simpl;
    intros H; injection H as <-;
    exists paths; (split; [reflexivity |]); split; find_line.
Qed.

(** X6.  The run counts of the task lines add up to the number of
    functional series, which is the number the segment shows as
    'Functional series'; an echo group counts as one series. *)
Theorem task_runs_total w recon_id inputs paths ids :
  bold_series inputs = Ok paths ->
  Forall2 (fun path id => task_of path = Ok id) paths ids ->
  exists items,
    (do c <- counts paths; Ok (sorted item_ltb c)) = Ok items /\
    list_sum (map snd items) = List.length paths /\
    (forall series, bold inputs = Defined series ->
                    List.length paths = List.length series) /\
    forall segment,
      _generate_segment w recon_id inputs = Ok segment ->
      contains ("<li>Functional series: " ++
                str_int (Z.of_nat (list_sum (map snd items))) ++ "</li>") segment = true.
Proof.
  intros Hb Ht. exists (sorted item_ltb (Counter ids)).
  rewrite (counts_Counter _ _ Ht). cbn [bind].
  assert (Hsum : list_sum (map snd (sorted item_ltb (Counter ids))) = List.length paths).
  { rewrite (list_sum_Permutation _ (map snd (Counter ids)))
      by (apply Permutation_map, sorted_Permutation).
    rewrite Counter_sum. symmetry. exact (Forall2_length Ht). }
  split; [reflexivity | split; [exact Hsum | split]].
  - intros series Hs. unfold bold_series in Hb. rewrite Hs in Hb.
    exact (mapM_length _ _ _ Hb).
  - intros segment H. rewrite Hsum.
    destruct (subject_segment_numbers _ _ _ _ H) as (paths' & Hb' & Hline & _).
    rewrite Hb in Hb'. injection Hb' as <-. exact Hline.
Qed.

Lemma task_runs_total_witness :
  exists items,
    (do c <- counts Sample.bold_paths; Ok (sorted item_ltb c)) = Ok items /\
    list_sum (map snd items) = 3 /\
    (forall series, Defined Sample.bold = Defined series -> 3 = List.length series) /\
    forall segment,
      _generate_segment Sample.world (Some "sub-01")
        (Sample.subject Undefined None Sample.bold) = Ok segment ->
      contains ("<li>Functional series: " ++
                str_int (Z.of_nat (list_sum (map snd items))) ++ "</li>") segment = true.
Proof.
  apply (task_runs_total Sample.world (Some "sub-01")
           (Sample.subject Undefined None Sample.bold)
           Sample.bold_paths ["rest"; "rest"; "nback"]).
  - vm_compute. reflexivity.
  - repeat constructor.
Defined.

(** X7.  The numbers of structural images shown are the lengths of the
    lists of T1w and T2w images, an undefined list counting as empty. *)
Theorem structural_image_numbers w recon_id inputs segment :
  _generate_segment w recon_id inputs = Ok segment ->
  contains ("<li>Structural images: " ++ str_int (Z.of_nat (len_trait (t1w inputs))) ++
            " T1-weighted, " ++ str_int (Z.of_nat (len_trait (t2w inputs))) ++
            " T2-weighted</li>") segment = true.
Proof.
  intros H. destruct (subject_segment_numbers _ _ _ _ H) as (_ & _ & _ & Hline).
  exact Hline.
Qed.

Lemma structural_image_numbers_witness :
  exists segment,
    _generate_segment Sample.world (Some "sub-01")
      (Sample.subject Undefined None Sample.bold) = Ok segment /\
    contains "<li>Structural images: 1 T1-weighted, 0 T2-weighted</li>" segment = true.
Proof.
  eexists. split; [vm_compute; reflexivity |].
  apply (structural_image_numbers Sample.world (Some "sub-01")
           (Sample.subject Undefined None Sample.bold)).
  vm_compute. reflexivity.
Defined.

End SubjectSummaryExtra.

(** ** The run of SubjectSummary *)

Section SubjectRunExtra.
Import SubjectSummary.







(** X13.  Without a subject identifier the attribute [_recon_id] is never
    set: as soon as a subjects directory and a reconstruction method are
    given, reading it raises [AttributeError] and no report is written;
    with no subjects directory the attribute is not read. *)
Theorem subject_run_without_id w cwd inputs :
  subject_id inputs = EmptyString ->
  (truthy_str (subjects_dir inputs) = true ->
   (exists m, recon_method inputs = Some m) ->
   _run_interface w cwd inputs =
     Raise (AttributeError "'SubjectSummary' object has no attribute '_recon_id'")) /\
  (truthy_str (subjects_dir inputs) = false ->
   forall r, _run_interface w cwd inputs = Ok r -> results_subject_id r = None).
Proof.
  intros Hsub. unfold _run_interface, _recon_id. rewrite Hsub. split.
  - intros Hdir [m Hm]. unfold _generate_segment, recon_status, truthy_str in *.
    destruct (subjects_dir inputs) as [|[|c d]]; try discriminate.
    rewrite Hm. destruct m; reflexivity.
  - intros _ r Hr.
    destruct (_generate_segment w None inputs) as [segment|]; [| discriminate].
    cbn [bind] in Hr.
    destruct (write_text w (os_path_join cwd "report.html") segment); [| discriminate].
    injection Hr as <-. reflexivity.
Qed.

End SubjectRunExtra.

(** ** The groups of LabeledHistogram *)

Section LabeledHistogramExtra.
Import LabeledHistogram.
Context {V : Type} (positive : V -> bool).
Context (get_fdata : string -> list V) (load_labels : string -> string -> list Z).

Lemma name_eqb_eq (a b : name) : name_eqb a b = true <-> a = b.
Proof.
  destruct a, b; simpl; split; intros H; try discriminate; try congruence.
  - apply Z.eqb_eq in H. congruence.
  - injection H as ->. apply Z.eqb_refl.
  - apply String.eqb_eq in H. congruence.
  - injection H as ->. apply String.eqb_refl.
Qed.

Lemma dict_set_fresh (acc : dict name (list V)) (k : name) (v : list V) :
  ~ In k (dict_keys acc) -> dict_set name_eqb acc k v = (acc ++ [(k, v)])%list.
Proof.
  unfold dict_keys. induction acc as [|[k' v'] acc IH]; simpl; intros H; [reflexivity |].
  destruct (name_eqb k' k) eqn:E.
  - apply name_eqb_eq in E. tauto.
  - rewrite IH by tauto. reflexivity.
Qed.

(** Labels plotted under pairwise distinct names give one group each, in
    the order of the labels. *)
Lemma rois_distinct (lm : dict Z name) (data : list V) (lbls : list Z) :
  List.length lbls = List.length data ->
  forall keys acc,
    NoDup (dict_keys acc ++ map (name_of lm) keys)%list ->
    rois lm keys data lbls acc =
      Ok (acc ++ map (fun l => (name_of lm l, voxels_of l lbls data)) keys)%list.
Proof.
  intros Hlen. induction keys as [|l keys IH]; intros acc Hnd; simpl.
  - rewrite app_nil_r. reflexivity.
  - unfold select. rewrite Hlen, Nat.eqb_refl. cbn [bind].
    fold (name_of lm l). fold (voxels_of l lbls data).
    simpl in Hnd. pose proof (NoDup_remove_2 _ _ _ Hnd) as Hfresh.
    rewrite dict_set_fresh by (intros Hin; apply Hfresh, in_or_app; left; exact Hin).
    rewrite IH.
    + rewrite <- app_assoc. reflexivity.
    + unfold dict_keys in *. rewrite map_app. simpl. rewrite <- app_assoc. simpl.
      eapply Permutation_NoDup; [| exact Hnd].
      apply Permutation_app_head. reflexivity.
Qed.

Lemma unique_insert_spec (x : Z) (l : list Z) :
  StronglySorted Z.lt l ->
  StronglySorted Z.lt (unique_insert x l) /\
  forall y, In y (unique_insert x l) <-> y = x \/ In y l.
Proof.
  induction 1 as [|a l Hs IH Ha]; simpl.
  - split; [repeat constructor | intros y; simpl; intuition].
  - destruct IH as [IH1 IH2].
    destruct (Z.ltb_spec x a) as [Hlt|Hge].
    + split; [| intros y; simpl; intuition].
      constructor; [constructor; assumption |].
      constructor; [exact Hlt |].
      eapply Forall_impl; [| exact Ha]. intros z Hz. lia.
    + destruct (Z.eqb_spec x a) as [->|Hne].
      * split; [constructor; assumption | intros y; simpl; intuition].
      * split.
        -- constructor; [exact IH1 |]. apply Forall_forall. intros z Hz.
           apply IH2 in Hz as [->|Hz]; [lia |].
           rewrite Forall_forall in Ha. auto.
        -- intros y. simpl. rewrite IH2. intuition.
Qed.

(** [np.unique]: strictly ascending, with the values of the list. *)
Lemma unique_spec (l : list Z) :
  StronglySorted Z.lt (unique l) /\ forall y, In y (unique l) <-> In y l.
Proof.
  unfold unique. induction l as [|x l [IH1 IH2]]; simpl.
  - split; [constructor | reflexivity].
  - destruct (unique_insert_spec x _ IH1) as [H1 H2]. split; [exact H1 |].
    intros y. rewrite H2, IH2. intuition.
Qed.

Lemma StronglySorted_lt_NoDup (l : list Z) : StronglySorted Z.lt l -> NoDup l.
Proof.
  induction 1 as [|a l Hs IH Ha]; constructor; [| exact IH].
  intros Hin. rewrite Forall_forall in Ha. specialize (Ha _ Hin). lia.
Qed.

Lemma NoDup_map_Label (l : list Z) : NoDup l -> NoDup (map Label l).
Proof.
  induction 1 as [|x l Hx Hnd IH]; simpl; constructor; [| exact IH].
  intros Hin. apply in_map_iff in Hin as (y & Hy & Hin). injection Hy as ->. contradiction.
Qed.

Lemma name_of_default (u : list Z) (l : Z) :
  name_of (map (fun label => (label, Label label)) u) l = Label l.
Proof.
  unfold name_of. induction u as [|x u IH]; simpl; [reflexivity |].
  destruct (Z.eqb_spec x l) as [->|]; [reflexivity | exact IH].
Qed.

(** X14.  Without a mapping, the groups plotted are named by the distinct
    strictly positive labels of the label array, in ascending order, and
    the group of a label holds the voxels that carry it, in storage order:
    voxels labelled zero or less are left out. *)
Theorem default_label_groups (out_report : string) (inputs : Inputs) :
  truthy_list (mapping inputs) = false ->
  let data := get_fdata (in_file inputs) in
  let lbls := labels positive load_labels inputs data in
  List.length lbls = List.length data ->
  exists plot shown,
    _generate_report positive get_fdata load_labels out_report inputs = Ok plot /\
    groups plot = map (fun l => (Label l, voxels_of l lbls data)) shown /\
    StronglySorted Z.lt shown /\
    (forall l, In l shown <-> In l lbls /\ (0 < l)%Z) /\
    bins plot = 50 /\ report_file plot = out_report.
Proof.
  intros Hmapping data lbls Hlen.
  pose (shown := unique (filter (Z.ltb 0) lbls)).
  destruct (unique_spec (filter (Z.ltb 0) lbls)) as [Hsorted Hin].
  unfold _generate_report. fold data. fold lbls. fold shown.
  assert (Hmap : label_map inputs shown = map (fun label => (label, Label label)) shown).
  { unfold label_map. destruct (mapping inputs) as [|[|item items]];
      try reflexivity. discriminate. }
  rewrite Hmap.
  assert (Hkeys : dict_keys (map (fun label => (label, Label label)) shown) = shown).
  { unfold dict_keys. rewrite map_map. apply map_id. }
  rewrite Hkeys, (rois_distinct _ _ _ Hlen).
  - cbn [bind app]. eexists. exists shown. split; [reflexivity |].
    cbn [groups bins report_file]. split.
    + apply map_ext. intros l. rewrite name_of_default. reflexivity.
    + split; [exact Hsorted | split; [| split; reflexivity]].
      intros l. unfold shown. rewrite Hin, filter_In, Z.ltb_lt. reflexivity.
  - cbn [dict_keys map app].
    rewrite (map_ext _ Label) by (intros l; apply name_of_default).
    apply NoDup_map_Label, StronglySorted_lt_NoDup. exact Hsorted.
Qed.












End LabeledHistogramExtra.

Section LabeledHistogramExtraSamples.
Import LabeledHistogram.

Lemma default_label_groups_witness :
  exists plot shown,
    _generate_report (Z.ltb 0) (fun _ => [7; 8; 9; 10]%Z) (fun _ _ => [2; 0; 1; 2]%Z)
      "report.svg"
      {| in_file := "T1w.nii.gz"; label_file := Defined "dseg.nii.gz";
         mapping := Undefined; xlabel := "voxels" |} = Ok plot /\
    groups plot =
      map (fun l => (Label l, voxels_of l [2; 0; 1; 2]%Z [7; 8; 9; 10]%Z)) shown /\
    StronglySorted Z.lt shown /\
    (forall l, In l shown <-> In l [2; 0; 1; 2]%Z /\ (0 < l)%Z) /\
    bins plot = 50 /\ report_file plot = "report.svg".
Proof.
  exact (default_label_groups (Z.ltb 0) (fun _ => [7; 8; 9; 10]%Z)
           (fun _ _ => [2; 0; 1; 2]%Z) "report.svg"
           {| in_file := "T1w.nii.gz"; label_file := Defined "dseg.nii.gz";
              mapping := Undefined; xlabel := "voxels" |} eq_refl eq_refl).
Defined.



End LabeledHistogramExtraSamples.

(** ** AboutSummary *)

Section AboutSummaryExtra.
Import AboutSummary.

(** X17.  [AboutSummary._generate_segment] never fails: whatever the
    version and the command hold, braces included, they are written as
    they are into the list, the command between code tags, followed by
    the date the clock reports and by the closing tags. *)
Theorem about_segment (strftime : string -> string) (inputs : Inputs) :
  _generate_segment strftime inputs =
    Ok (line 1 "<ul>" ++
        line 2 ("<li>NiBabies version: " ++ version inputs ++ "</li>") ++
        line 2 ("<li>NiBabies command: <code>" ++ command inputs ++ "</code></li>") ++
        line 2 ("<li>Date preprocessed: " ++ strftime "%Y-%m-%d %H:%M:%S %z" ++ "</li>") ++
        line 1 "</ul>" ++
        line 0 "</div>").
Proof.
  unfold _generate_segment, format. parse_template.
  generalize (strftime "%Y-%m-%d %H:%M:%S %z"). intros date.
  cbn [render bind getitem dict_get String.eqb Ascii.eqb Bool.eqb format_value andb].
  unfold line. cbn [tabs]. unfold tab, nl.
  repeat (cbn [append]; rewrite ?append_assoc). reflexivity.
Qed.

End AboutSummaryExtra.

Section SubjectRunSamples.
Import SubjectSummary.

Lemma subject_run_without_id_witness :
  _run_interface Sample.world "/work"
    {| t1w := Undefined; t2w := Undefined; subjects_dir := Defined "/out/freesurfer";
       subject_id := EmptyString; session_id := Undefined;
       anatomical_reference := T1w; bold := Undefined;
       std_spaces := []; nstd_spaces := []; recon_method := Some mcribs; age := 3%Z |} =
  Raise (AttributeError "'SubjectSummary' object has no attribute '_recon_id'").
Proof.
  apply (proj1 (subject_run_without_id Sample.world "/work"
           {| t1w := Undefined; t2w := Undefined; subjects_dir := Defined "/out/freesurfer";
              subject_id := EmptyString; session_id := Undefined;
              anatomical_reference := T1w; bold := Undefined;
              std_spaces := []; nstd_spaces := []; recon_method := Some mcribs;
              age := 3%Z |} eq_refl) eq_refl).
  exists mcribs. reflexivity.
Defined.

End SubjectRunSamples.

Section SubjectNoBold.
Import SubjectSummary.

(** X19.  With no functional series, the list left undefined or empty, no
    task list is written: a generated segment counts zero functional
    series and leaves the line of the task list empty. *)
Theorem no_series_no_tasks w recon_id inputs segment :
  truthy_list (bold inputs) = false ->
  _generate_segment w recon_id inputs = Ok segment ->
  contains ("<li>Functional series: 0</li>" ++ nl ++ nl ++ tabs 2 ++
            "<li>Standard output spaces: ") segment = true.
Proof.
  intros Hbold.
  assert (Hseries : bold_series inputs = Ok []).
  { unfold bold_series. destruct (bold inputs) as [|[|s l]]; try reflexivity. discriminate. }
  unfold _generate_segment, format. parse_template. rewrite Hseries.
  destruct (recon_status w recon_id inputs) as [status|] eqn:E1; cbn [bind]; [| discriminate].
  change (counts []) with (Ok (@nil (string * nat))). cbn [bind tasks].
  destruct status as [status|]; cbn [bind local]; [| discriminate].
  match goal with
  | |- _ -> contains ?p _ = true =>
      let p' := eval vm_compute in p in change p with p'
  end.
  destruct (session_id inputs), (recon_method inputs); simpl;
    intros H; injection H as <-; find_line.
Qed.

Lemma no_series_no_tasks_witness :
  exists segment,
    _generate_segment Sample.world (Some "sub-01") (Sample.subject Undefined None []) =
      Ok segment /\
    contains ("<li>Functional series: 0</li>" ++ nl ++ nl ++ tabs 2 ++
              "<li>Standard output spaces: ") segment = true.
Proof.
  eexists. split; [vm_compute; reflexivity |].
  apply (no_series_no_tasks Sample.world (Some "sub-01") (Sample.subject Undefined None []));
    [reflexivity | vm_compute; reflexivity].
Defined.

End SubjectNoBold.
